(** * LEDAX-UC map front-end: filter engine, map renderer and data loader

    A shallow embedding of [static/script.js].  The page keeps a list of
    business units ([unidades]), filters and sorts it according to the form
    controls ([applyFilters]), and redraws one Leaflet marker per geocoded
    unit ([atualizarMapa]).

    Layout of the development.  Definitions:
    - [JsString]  the host string operations the script calls, and [sort];
    - the records [Unidade] and [Filtros] and the coercions of the script;
    - [Filtro]    the filter-and-sort computation of [applyFilters];
    - [Mapa]      popups and markers;
    - [Pagina]    the page state, the heap of arrays and the effectful
                  functions ([atualizarMapa], [applyFilters], [renderRedes],
                  [carregarDados]);
    - [Ascii7]    a concrete host used to run the definitions on examples;
    - [Espec]     the vocabulary of the statements; [Exemplos] sample data.
    Properties follow, module by module. *)

From Stdlib Require Import ZArith List String Ascii Floats Bool Lia.
From Stdlib Require Import Permutation Sorted.
From stdpp Require Import base option list gmap strings.
From stdpp Require sorting.

Import ListNotations.
Local Open Scope string_scope.
Local Open Scope list_scope.

(* ===================================================================== *)
(** ** Host string operations *)
(* ===================================================================== *)

Module JsString.

(** The empty string literal [''] of the script. *)
Definition vazio : string := EmptyString.

(** The double-quote character, used inside the HTML templates. *)
Definition aspas : string := String (ascii_of_nat 34) EmptyString.

(** [s.length] is truthy, [!!s] for a string. *)
Definition naoVazio (s : string) : bool :=
  match s with
  | EmptyString => false
  | String _ _ => true
  end.

(** [q] is a prefix of [s]. *)
Fixpoint comecaCom (s q : string) {struct q} : bool :=
  match q, s with
  | EmptyString, _ => true
  | String _ _, EmptyString => false
  | String b q', String a s' => if Ascii.eqb a b then comecaCom s' q' else false
  end.

(** [String.prototype.includes]: [s.includes(q)] is true exactly when [q]
    occurs in [s] as a contiguous run of code units.  No case folding and no
    locale are involved. *)
Fixpoint includes (s q : string) : bool :=
  if comecaCom s q then true
  else match s with
       | EmptyString => false
       | String _ s' => includes s' q
       end.

(** What the script takes from the browser.  The three string operations
    depend on the Unicode tables and on the locale; [localeCompare] returns
    a negative number, zero or a positive number.  [trocaEspacos s] is
    [s.replace(/\s+/g,'-')].  [herdado k] is the member named [k] that
    every plain object inherits from [Object.prototype] ([constructor],
    [toString], ...), given as the text that a template literal makes of
    it, and [None] when there is no such member.  [caixasDe h] is what the
    HTML parser finds when [h] is assigned to [innerHTML]: the check boxes
    of the fragment in document order, each with the [value] and the
    [checked] flag that the script reads back. *)
Class Host := {
  toLowerCase : string -> string;
  trim : string -> string;
  localeCompare : string -> string -> Z;
  trocaEspacos : string -> string;
  herdado : string -> option string;
  caixasDe : string -> list (string * bool)
}.

(** What ECMAScript promises about them.  [localeCompare] is a consistent
    comparator (a total preorder on strings); lower-casing neither creates
    nor removes surrounding white space, and only the empty string
    lower-cases to the empty string. *)
Class HostLaws (H : Host) : Prop := {
  localeCompare_antisym :
    forall a b, Z.sgn (localeCompare b a) = (- Z.sgn (localeCompare a b))%Z;
  localeCompare_trans :
    forall a b c,
      (localeCompare a b <= 0)%Z -> (localeCompare b c <= 0)%Z ->
      (localeCompare a c <= 0)%Z;
  toLowerCase_trim :
    forall s, toLowerCase (trim s) = trim (toLowerCase s);
  toLowerCase_vazio :
    forall s, toLowerCase s = EmptyString <-> s = EmptyString
}.

(** [Array.prototype.sort(cmp)].  Since ES2019 the sort is stable, and for
    a consistent comparator every stable sort returns the same array; the
    model is the stable insertion sort.  [cmp a b <= 0] leaves [a] before
    [b]. *)
Section Sort.
Context {A : Type} (cmp : A -> A -> Z).

Fixpoint insere (x : A) (l : list A) : list A :=
  match l with
  | [] => [x]
  | y :: l' => if (cmp x y <=? 0)%Z then x :: y :: l' else y :: insere x l'
  end.

Definition sort (l : list A) : list A := fold_right insere [] l.

End Sort.

End JsString.

Import JsString.

(* ===================================================================== *)
(** ** Data model *)
(* ===================================================================== *)

(** A unit record as delivered by [/unidades/all].  A field that is missing
    or [null] in the JSON is [None]; text fields are strings and the
    coordinates are JavaScript numbers (IEEE doubles). The script never
    writes to a unit. *)
Record Unidade := {
  nome : option string;
  rede : option string;
  cnpj : option string;
  endereco_original : option string;
  estado : option string;
  latitude : option float;
  longitude : option float
}.

(** The object returned by [lerFiltrosForm]: [{redes, estado, cnpj, nome,
    ordenar}]. *)
Record Filtros := {
  f_redes : list string;
  f_estado : string;
  f_cnpj : string;
  f_nome : string;
  f_ordenar : string
}.

(** JavaScript truthiness of a text field: [undefined], [null] and [''] are
    falsy. *)
Definition truthy (v : option string) : bool :=
  match v with
  | Some s => naoVazio s
  | None => false
  end.

(** [v || d] for a text field [v] and a string [d]. *)
Definition ou (v : option string) (d : string) : string :=
  if truthy v then default d v else d.

(** Truthiness of a number: [0], [-0] and [NaN] are falsy. *)
Definition truthyNum (v : option float) : bool :=
  match v with
  | Some x => negb (PrimFloat.is_zero x || PrimFloat.is_nan x)
  | None => false
  end.

(** [function safeText(s){ return (s || '').toString(); }] *)
Definition safeText (s : option string) : string := ou s vazio.

(** [function normalizeString(s){ return safeText(s).trim().toLowerCase(); }] *)
Definition normalizeString `{Host} (s : option string) : string :=
  toLowerCase (trim (safeText s)).

(* ===================================================================== *)
(** ** The filter engine: the value of [resultado] in [applyFilters] *)
(* ===================================================================== *)

Module Filtro.

Section ComHost.
Context `{Host}.

(** [f.redes.includes(u.rede)]: strict equality with one of the selected
    names; a unit without network equals none of them. *)
Definition predRede (f : Filtros) (u : Unidade) : bool :=
  match rede u with
  | Some r => existsb (String.eqb r) (f_redes f)
  | None => false
  end.

(** [if(f.redes.length){ resultado = resultado.filter(...) }] *)
Definition passoRede (f : Filtros) (l : list Unidade) : list Unidade :=
  match f_redes f with
  | [] => l
  | _ :: _ => List.filter (predRede f) l
  end.

(** The arrow function of the state filter. *)
Definition predEstado (f : Filtros) (u : Unidade) : bool :=
  (truthy (estado u)
     && String.eqb (normalizeString (estado u))
                   (normalizeString (Some (f_estado f))))
  || (truthy (endereco_original u)
        && includes (normalizeString (endereco_original u))
                    ("-" ++ normalizeString (Some (f_estado f)))).

(** [if(f.estado && f.estado !== 'Todos')] *)
Definition estadoSelecionado (f : Filtros) : bool :=
  naoVazio (f_estado f) && negb (String.eqb (f_estado f) "Todos").

Definition passoEstado (f : Filtros) (l : list Unidade) : list Unidade :=
  if estadoSelecionado f then List.filter (predEstado f) l else l.

(** [u => u.cnpj && u.cnpj.includes(f.cnpj)] *)
Definition predCnpj (f : Filtros) (u : Unidade) : bool :=
  truthy (cnpj u) && includes (default vazio (cnpj u)) (f_cnpj f).

Definition passoCnpj (f : Filtros) (l : list Unidade) : list Unidade :=
  if naoVazio (f_cnpj f) then List.filter (predCnpj f) l else l.

(** [u => u.nome && normalizeString(u.nome).includes(normalizeString(f.nome))] *)
Definition predNome (f : Filtros) (u : Unidade) : bool :=
  truthy (nome u)
  && includes (normalizeString (nome u)) (normalizeString (Some (f_nome f))).

Definition passoNome (f : Filtros) (l : list Unidade) : list Unidade :=
  if naoVazio (f_nome f) then List.filter (predNome f) l else l.

(** The four filter steps, in the order of the source. *)
Definition filtrar (f : Filtros) (l : list Unidade) : list Unidade :=
  passoNome f (passoCnpj f (passoEstado f (passoRede f l))).

(** The sort keys [a.nome||''] and [a.rede||'']. *)
Definition chaveNome (u : Unidade) : string := ou (nome u) vazio.
Definition chaveRede (u : Unidade) : string := ou (rede u) vazio.

(** The four comparators handed to [sort]. *)
Definition cmp_nome_az (a b : Unidade) : Z := localeCompare (chaveNome a) (chaveNome b).
Definition cmp_nome_za (a b : Unidade) : Z := localeCompare (chaveNome b) (chaveNome a).
Definition cmp_rede_az (a b : Unidade) : Z := localeCompare (chaveRede a) (chaveRede b).
Definition cmp_rede_za (a b : Unidade) : Z := localeCompare (chaveRede b) (chaveRede a).

(** [switch(f.ordenar){ case 'nome_az': ... }]: no default branch. *)
Definition ordenar (modo : string) (l : list Unidade) : list Unidade :=
  if String.eqb modo "nome_az" then sort cmp_nome_az l
  else if String.eqb modo "nome_za" then sort cmp_nome_za l
  else if String.eqb modo "rede_az" then sort cmp_rede_az l
  else if String.eqb modo "rede_za" then sort cmp_rede_za l
  else l.

(** The array handed to [atualizarMapa] by [applyFilters], as a function of
    the unit list and of the criteria read from the form. *)
Definition resultado (us : list Unidade) (f : Filtros) : list Unidade :=
  ordenar (f_ordenar f) (filtrar f us).

End ComHost.

End Filtro.

(* ===================================================================== *)
(** ** Popups and markers *)
(* ===================================================================== *)

Module Mapa.

(** [const REDE_COLORS = {...}]: the four own properties of the object
    that maps a network name to its colour. *)
Definition REDE_COLORS : gmap string string :=
  <["Novo Mix" := "#1f77b4"]>
  (<["Hiperideal" := "#ff7f0e"]>
  (<["Rede Mix" := "#9467bd"]>
  (<["DEFAULT" := "#2ca02c"]> ∅))).

Definition nl : string := String (ascii_of_nat 10) EmptyString.

(** What reading a property of a plain object gives: a string of the
    object itself, or an inherited member, kept as the text an
    interpolation makes of it. *)
Inductive Valor :=
| Texto (s : string)
| Membro (t : string).

Section ComHost.
Context `{Host}.

(** [o[k]] for an object with the own string properties [o]: an own
    property first, then [Object.prototype]; [None] is [undefined]. *)
Definition lerPropriedade (o : gmap string string) (k : string)
    : option Valor :=
  match o !! k with
  | Some s => Some (Texto s)
  | None => Membro <$> herdado k
  end.

(** [REDE_COLORS[u.rede] || REDE_COLORS.DEFAULT], as the text that the
    icon template interpolates.  A missing network reads the property
    named undefined (a JSON null the one named null; no object inherits
    a member under either name).  An own property is a string, falsy when
    empty; an inherited member is a function or an object, always
    truthy. *)
Definition corDaRede (r : option string) : string :=
  match lerPropriedade REDE_COLORS (default "undefined" r) with
  | Some (Texto s) => ou (Some s) (default vazio (REDE_COLORS !! "DEFAULT"))
  | Some (Membro t) => t
  | None => default vazio (REDE_COLORS !! "DEFAULT")
  end.

End ComHost.

(** [function makePopupHtml(u)]: the template literal, line by line. *)
Definition makePopupHtml (u : Unidade) : string :=
  nl ++
  "    <div class=" ++ aspas ++ "popup-title" ++ aspas ++ ">" ++ ou (nome u) vazio ++ "</div>" ++ nl ++
  "    <div style=" ++ aspas ++ "font-size:.9rem;margin-top:6px;" ++ aspas ++ ">" ++ nl ++
  "      <strong>Rede:</strong> " ++ ou (rede u) "N/A" ++ nl ++
  "    </div>" ++ nl ++
  "    <div style=" ++ aspas ++ "font-size:.9rem;" ++ aspas ++ ">" ++ nl ++
  "      <strong>Endereço:</strong> " ++ ou (endereco_original u) "N/A" ++ nl ++
  "    </div>" ++ nl ++
  "    <div style=" ++ aspas ++ "font-size:.85rem;color:var(--muted);margin-top:6px;" ++ aspas ++ ">" ++ nl ++
  "      <strong>CNPJ:</strong> " ++ ou (cnpj u) "N/A" ++ nl ++
  "    </div>" ++ nl ++
  "  ".

(** [L.divIcon({className, html, iconSize, iconAnchor})] *)
Record DivIcon := {
  className : string;
  html : string;
  iconSize : Z * Z;
  iconAnchor : Z * Z
}.

(** A Leaflet marker: position, icon and bound popup. *)
Record Marker := {
  latlng : float * float;
  icon : DivIcon;
  popup : string
}.

Section ComHost.
Context `{Host}.

(** [function criarMarcador(u)]: [null] is [None]. *)
Definition criarMarcador (u : Unidade) : option Marker :=
  if negb (truthyNum (latitude u)) || negb (truthyNum (longitude u)) then None
  else
    la ← latitude u;
    lo ← longitude u;
    let color := corDaRede (rede u) in
    let icon := {|
      className := "custom-marker";
      html := "<div style=" ++ aspas
              ++ "width:100%;height:100%;border-radius:50%;background:"
              ++ color ++ aspas ++ "></div>";
      iconSize := (24, 24)%Z;
      iconAnchor := (12, 12)%Z |} in
    Some {| latlng := (la, lo); icon := icon; popup := makePopupHtml u |}.

(** The markers added to [markersLayer] by the [forEach] of
    [atualizarMapa]: one per unit for which [criarMarcador] is not
    [null], in list order. *)
Definition marcadores (l : list Unidade) : list Marker :=
  omap criarMarcador l.

End ComHost.

(** A unit on the equator, west of Macapá. *)
Definition unidadeEquador : Unidade := {|
  nome := Some "Loja Equador";
  rede := Some "Novo Mix";
  cnpj := Some "12.345.678/0001-90";
  endereco_original := Some "Rod. AP-010, Macapá-AP";
  estado := Some "AP";
  latitude := Some 0%float;
  longitude := Some (-51.0625)%float
|}.

End Mapa.

(* ===================================================================== *)
(** ** The page: global variables, arrays, layers and the form *)
(* ===================================================================== *)

Module Pagina.
Import Mapa.

(** Arrays are objects: a variable holds a reference, and [sort] updates
    the array in place. *)
Definition loc := nat.

(** The filter controls of the panel.  A check box is its [value] and its
    [checked] flag, in document order. *)
Record Form := {
  checkboxes : list (string * bool);
  selectEstado : string;
  inputCNPJ : string;
  inputNome : string;
  selectOrdenar : string
}.

(** What a [catch] clause can receive here: a rejected [fetch] or a body
    that is not JSON. *)
Inductive Excecao := ErroDeRede | ErroDeSintaxe.

(** The module-level variables of the script and the parts of the document
    it writes.  [noMapaCluster] and [noMapaMarkers] say which of the two
    layers is attached to the map; [legend] holds the HTML given to each
    item of the legend; [requests] lists the URLs fetched by the data
    loader, oldest first; [console] is what [console.error] printed. *)
Record Page := {
  status : string;
  heap : gmap loc (list Unidade);
  unidades : loc;
  unidadesAtuais : loc;
  clusterGroup : list Marker;
  markersLayer : list Marker;
  clustersAtivos : bool;
  noMapaCluster : bool;
  noMapaMarkers : bool;
  form : Form;
  legend : list string;
  requests : list string;
  console : list Excecao
}.

Definition com_status (v : string) (p : Page) : Page :=
  {| status := v; heap := heap p; unidades := unidades p;
     unidadesAtuais := unidadesAtuais p; clusterGroup := clusterGroup p;
     markersLayer := markersLayer p; clustersAtivos := clustersAtivos p;
     noMapaCluster := noMapaCluster p; noMapaMarkers := noMapaMarkers p;
     form := form p; legend := legend p; requests := requests p;
     console := console p |}.

Definition com_heap (v : gmap loc (list Unidade)) (p : Page) : Page :=
  {| status := status p; heap := v; unidades := unidades p;
     unidadesAtuais := unidadesAtuais p; clusterGroup := clusterGroup p;
     markersLayer := markersLayer p; clustersAtivos := clustersAtivos p;
     noMapaCluster := noMapaCluster p; noMapaMarkers := noMapaMarkers p;
     form := form p; legend := legend p; requests := requests p;
     console := console p |}.

Definition com_unidades (v : loc) (p : Page) : Page :=
  {| status := status p; heap := heap p; unidades := v;
     unidadesAtuais := unidadesAtuais p; clusterGroup := clusterGroup p;
     markersLayer := markersLayer p; clustersAtivos := clustersAtivos p;
     noMapaCluster := noMapaCluster p; noMapaMarkers := noMapaMarkers p;
     form := form p; legend := legend p; requests := requests p;
     console := console p |}.

(** The assignments of [atualizarMapa], all at once. *)
Definition com_camadas (atuais : loc) (cg ml : list Marker) (c m : bool)
    (p : Page) : Page :=
  {| status := status p; heap := heap p; unidades := unidades p;
     unidadesAtuais := atuais; clusterGroup := cg;
     markersLayer := ml; clustersAtivos := clustersAtivos p;
     noMapaCluster := c; noMapaMarkers := m;
     form := form p; legend := legend p; requests := requests p;
     console := console p |}.

Definition com_redes (cbs : list (string * bool)) (lg : list string)
    (p : Page) : Page :=
  {| status := status p; heap := heap p; unidades := unidades p;
     unidadesAtuais := unidadesAtuais p; clusterGroup := clusterGroup p;
     markersLayer := markersLayer p; clustersAtivos := clustersAtivos p;
     noMapaCluster := noMapaCluster p; noMapaMarkers := noMapaMarkers p;
     form := {| checkboxes := cbs; selectEstado := selectEstado (form p);
                inputCNPJ := inputCNPJ (form p); inputNome := inputNome (form p);
                selectOrdenar := selectOrdenar (form p) |};
     legend := lg; requests := requests p; console := console p |}.

Definition com_request (url : string) (p : Page) : Page :=
  {| status := status p; heap := heap p; unidades := unidades p;
     unidadesAtuais := unidadesAtuais p; clusterGroup := clusterGroup p;
     markersLayer := markersLayer p; clustersAtivos := clustersAtivos p;
     noMapaCluster := noMapaCluster p; noMapaMarkers := noMapaMarkers p;
     form := form p; legend := legend p; requests := requests p ++ [url];
     console := console p |}.

Definition com_console (e : Excecao) (p : Page) : Page :=
  {| status := status p; heap := heap p; unidades := unidades p;
     unidadesAtuais := unidadesAtuais p; clusterGroup := clusterGroup p;
     markersLayer := markersLayer p; clustersAtivos := clustersAtivos p;
     noMapaCluster := noMapaCluster p; noMapaMarkers := noMapaMarkers p;
     form := form p; legend := legend p; requests := requests p;
     console := console p ++ [e] |}.

(** The contents of the array behind a reference. *)
Definition deref (p : Page) (r : loc) : list Unidade :=
  default [] (heap p !! r).

(** The markers the user sees: those of the layers attached to the map. *)
Definition visiveis (p : Page) : list Marker :=
  (if noMapaCluster p then clusterGroup p else [])
  ++ (if noMapaMarkers p then markersLayer p else []).

(** *** Statements with effects and exceptions *)

(** A statement runs on the page and either completes with a value or
    throws; what it wrote before throwing stays written. *)
Definition M (A : Type) : Type := Page -> Page * (Excecao + A).

#[export] Instance M_ret : MRet M := fun A a p => (p, inr a).

#[export] Instance M_bind : MBind M := fun A B k m p =>
  match m p with
  | (p', inr a) => k a p'
  | (p', inl e) => (p', inl e)
  end.

Definition throw {A} (e : Excecao) : M A := fun p => (p, inl e).

(** [try { m } catch(err) { h err }] *)
Definition tryCatch {A} (m : M A) (h : Excecao -> M A) : M A := fun p =>
  match m p with
  | (p', inl e) => h e p'
  | r => r
  end.

(** A call [g()] of an [async] function whose body never awaits, made
    without [await]: the body runs at once, and an exception rejects the
    promise nobody looks at instead of reaching the caller. *)
Definition semAwait (m : M ()) : M () := fun p => (fst (m p), inr ()).

Definition ler {A} (g : Page -> A) : M A := fun p => (p, inr (g p)).
Definition escrever (g : Page -> Page) : M () := fun p => (g p, inr ()).

(** [status.textContent = v] *)
Definition setStatus (v : string) : M () := escrever (com_status v).

(** A new array with the given contents. *)
Definition alocar (l : list Unidade) : M loc := fun p =>
  let r := fresh (dom (heap p)) in
  (com_heap (<[r := l]> (heap p)) p, inr r).

(** [[...a]] *)
Definition copiar (a : loc) : M loc :=
  l ← ler (fun p => deref p a); alocar l.

(** [a.filter(pred)]: a new array. *)
Definition filterArr (pred : Unidade -> bool) (a : loc) : M loc :=
  l ← ler (fun p => deref p a); alocar (List.filter pred l).

(** [a.sort(cmp)]: the array itself is reordered. *)
Definition sortArr (cmp : Unidade -> Unidade -> Z) (a : loc) : M () :=
  escrever (fun p => com_heap (<[a := sort cmp (deref p a)]> (heap p)) p).

Section ComHost.
Context `{Host}.

(** [function atualizarMapa(unidadesList)].  Both layers are emptied and
    detached, the markers are rebuilt, and one of the layers is attached
    again.  The final [fitBounds] only moves the viewport, which is not
    part of [Page]. *)
Definition atualizarMapa (unidadesList : loc) : M () :=
  escrever (fun p =>
    let ms := marcadores (deref p unidadesList) in
    if clustersAtivos p
    then com_camadas unidadesList ms ms true false p
    else com_camadas unidadesList [] ms false true p).

(** [function lerFiltrosForm()] *)
Definition lerFiltrosForm (fm : Form) : Filtros :=
  {| f_redes := map fst (List.filter snd (checkboxes fm));
     f_estado := selectEstado fm;
     f_cnpj := trim (inputCNPJ fm);
     f_nome := trim (inputNome fm);
     f_ordenar := selectOrdenar fm |}.

(** The [switch] of [applyFilters], on the array [resultado]. *)
Definition ordenarArr (modo : string) (a : loc) : M () :=
  if String.eqb modo "nome_az" then sortArr Filtro.cmp_nome_az a
  else if String.eqb modo "nome_za" then sortArr Filtro.cmp_nome_za a
  else if String.eqb modo "rede_az" then sortArr Filtro.cmp_rede_az a
  else if String.eqb modo "rede_za" then sortArr Filtro.cmp_rede_za a
  else mret ().

(** [async function applyFilters()].  [r0] .. [r4] are the successive
    values of the variable [resultado]. *)
Definition applyFilters : M () :=
  setStatus "Filtrando...";;
  f ← ler (fun p => lerFiltrosForm (form p));
  u ← ler unidades;
  r0 ← copiar u;
  r1 ← (match f_redes f with
        | [] => mret r0
        | _ :: _ => filterArr (Filtro.predRede f) r0
        end);
  r2 ← (if Filtro.estadoSelecionado f
        then filterArr (Filtro.predEstado f) r1 else mret r1);
  r3 ← (if naoVazio (f_cnpj f)
        then filterArr (Filtro.predCnpj f) r2 else mret r2);
  r4 ← (if naoVazio (f_nome f)
        then filterArr (Filtro.predNome f) r3 else mret r3);
  ordenarArr (f_ordenar f) r4;;
  atualizarMapa r4;;
  setStatus "Dados atualizados.".

End ComHost.

(** A network name that can be written into the two templates of
    [renderRedes] as it is, as attribute value and as text: no double
    quote, no ampersand, no less-than sign, no NUL and no carriage
    return. *)
Definition nomeSimples (r : string) : Prop :=
  Forall (fun c => ~ In (nat_of_ascii c) [34; 38; 60; 0; 13]%nat)
         (list_ascii_of_string r).

Section ComHost.
Context `{Host}.

(** [const safeId = `rede-${rede.replace(/\s+/g,'-')}`] *)
Definition safeId (rede : string) : string := "rede-" ++ trocaEspacos rede.

(** The template assigned to [row.innerHTML]. *)
Definition linhaHtml (rede : string) : string :=
  nl ++
  "      <input type=" ++ aspas ++ "checkbox" ++ aspas ++ " id=" ++ aspas ++ safeId rede ++ aspas ++ " value=" ++ aspas ++ rede ++ aspas ++ " checked>" ++ nl ++
  "      <label for=" ++ aspas ++ safeId rede ++ aspas ++ ">" ++ rede ++ "</label>" ++ nl ++
  "    ".

(** The template assigned to [item.innerHTML]. *)
Definition itemHtml (rede : string) : string :=
  nl ++
  "      <div class=" ++ aspas ++ "legend-color-box" ++ aspas ++ " style=" ++ aspas ++ "background:" ++ corDaRede (Some rede) ++ aspas ++ "></div>" ++ nl ++
  "      <span>" ++ rede ++ "</span>" ++ nl ++
  "    ".

(** [function renderRedes(redes)].  The container and the legend are
    emptied; every name appends a row whose HTML is parsed into its check
    boxes, and a legend item. *)
Definition renderRedes (redes : list string) : M () :=
  escrever (com_redes (flat_map (fun r => caixasDe (linhaHtml r)) redes)
                      (map itemHtml redes)).

End ComHost.

(** What the HTML parser does with a row of [renderRedes] whose name is
    simple: one check box, checked, with the name as its value. *)
Class HtmlLaws (H : Host) : Prop := {
  caixasDe_linha :
    forall r, nomeSimples r -> caixasDe (linhaHtml r) = [(r, true)]
}.

(** *** The two start-up requests *)

Definition API_BASE : string := "https://ledax-uc.onrender.com/".
Definition ENDPOINT_REDES : string := API_BASE ++ "/unidades/redes".
Definition ENDPOINT_ALL : string := API_BASE ++ "/unidades/all".

(** What a request meets: no answer at all, an answer whose body is not
    JSON, or the JSON value. *)
Inductive Resposta (A : Type) :=
| FalhaRede
| CorpoInvalido
| Json (a : A).
Arguments FalhaRede {A}.
Arguments CorpoInvalido {A}.
Arguments Json {A} a.

Record Servidor := {
  respRedes : Resposta (list string);
  respAll : Resposta (list Unidade)
}.

Definition falhou {A} (r : Resposta A) : Prop :=
  r = FalhaRede \/ r = CorpoInvalido.

(** [await fetch(url)]: the request is issued; the promise rejects when
    there is no answer. *)
Definition fetch {A} (url : string) (r : Resposta A) : M (Resposta A) :=
  escrever (com_request url);;
  match r with
  | FalhaRede => throw ErroDeRede
  | _ => mret r
  end.

(** [await r.json()] *)
Definition json {A} (r : Resposta A) : M A :=
  match r with
  | Json a => mret a
  | _ => throw ErroDeSintaxe
  end.

Section ComHost.
Context `{Host}.

(** [async function carregarDados()] *)
Definition carregarDados (srv : Servidor) : M () :=
  setStatus "Carregando dados...";;
  tryCatch
    (r ← fetch ENDPOINT_REDES (respRedes srv);
     redes ← json r;
     renderRedes redes;;
     uresp ← fetch ENDPOINT_ALL (respAll srv);
     us ← json uresp;
     a ← alocar us;
     escrever (com_unidades a);;
     semAwait applyFilters;;
     setStatus "Dados carregados.")
    (fun err =>
       escrever (com_console err);;
       setStatus "Erro ao carregar dados.").

End ComHost.

(** The page when [carregarDados] starts: [unidades] and [unidadesAtuais]
    are two empty arrays, both layers are empty, and [initMap] has attached
    [markersLayer] to the map.  The form and the status text come from the
    HTML document. *)
Definition paginaInicial (st : string) (fm : Form) : Page :=
  {| status := st;
     heap := <[0 := []]> (<[1 := []]> ∅);
     unidades := 0;
     unidadesAtuais := 1;
     clusterGroup := [];
     markersLayer := [];
     clustersAtivos := true;
     noMapaCluster := false;
     noMapaMarkers := true;
     form := fm;
     legend := [];
     requests := [];
     console := [] |}.

End Pagina.

(* ===================================================================== *)
(** ** A concrete host for 7-bit text *)
(* ===================================================================== *)

(** On text made of ASCII characters the host operations are these:
    [toLowerCase] maps [A-Z] to [a-z], [trim] strips the six ASCII white
    space characters from both ends, and the regular expression of
    [safeId] replaces each run of them by a hyphen.  [localeCompare] is
    taken to be the code-unit order, which is one consistent comparator
    among those an engine may use.  The inherited members are those of
    [Object.prototype].  The HTML reader knows the one shape of fragment
    that [renderRedes] writes. *)
Module Ascii7.

Definition minuscula (c : ascii) : ascii :=
  let n := nat_of_ascii c in
  if (65 <=? n)%nat && (n <=? 90)%nat then ascii_of_nat (n + 32) else c.

Fixpoint paraMinusculas (s : string) : string :=
  match s with
  | EmptyString => EmptyString
  | String c s' => String (minuscula c) (paraMinusculas s')
  end.

Definition espaco (c : ascii) : bool :=
  let n := nat_of_ascii c in
  ((9 <=? n)%nat && (n <=? 13)%nat) || (n =? 32)%nat.

Fixpoint aparaInicio (s : string) : string :=
  match s with
  | EmptyString => EmptyString
  | String c s' => if espaco c then aparaInicio s' else s
  end.

Fixpoint aparaFim (s : string) : string :=
  match s with
  | EmptyString => EmptyString
  | String c s' =>
      match aparaFim s' with
      | EmptyString => if espaco c then EmptyString else String c EmptyString
      | t => String c t
      end
  end.

Definition apara (s : string) : string := aparaFim (aparaInicio s).

Definition compara (a b : string) : Z :=
  match String.compare a b with
  | Eq => 0
  | Lt => -1
  | Gt => 1
  end.

(** Runs of white space become one hyphen. *)
Fixpoint trocaDesde (emEspacos : bool) (s : string) : string :=
  match s with
  | EmptyString => EmptyString
  | String c s' =>
      if espaco c
      then if emEspacos then trocaDesde true s'
           else String "-" (trocaDesde true s')
      else String c (trocaDesde false s')
  end.

Definition troca (s : string) : string := trocaDesde false s.

(** The members of [Object.prototype], with the text of a native function
    as one engine prints it. *)
Definition nativa (k : string) : string :=
  "function " ++ k ++ "() { [native code] }".

Definition membros (k : string) : option string :=
  if String.eqb k "constructor" then Some (nativa "Object")
  else if String.eqb k "__proto__" then Some "[object Object]"
  else if existsb (String.eqb k)
            ["toString"; "toLocaleString"; "valueOf"; "hasOwnProperty";
             "isPrototypeOf"; "propertyIsEnumerable"; "__defineGetter__";
             "__defineSetter__"; "__lookupGetter__"; "__lookupSetter__"]
       then Some (nativa k)
  else None.

(** [s] without the prefix [q], when it starts with it. *)
Fixpoint semPrefixo (q s : string) : option string :=
  match q, s with
  | EmptyString, _ => Some s
  | String b q', String a s' => if Ascii.eqb a b then semPrefixo q' s' else None
  | String _ _, EmptyString => None
  end.

(** The text up to the next double quote, and the text after it. *)
Fixpoint ateAspas (s : string) : option (string * string) :=
  match s with
  | EmptyString => None
  | String c s' =>
      if (nat_of_ascii c =? 34)%nat then Some (EmptyString, s')
      else '(a, r) ← ateAspas s'; Some (String c a, r)
  end.

(** A reader for fragments of the shape [renderRedes] writes: an [input]
    of type checkbox with a quoted [id] and a quoted [value], checked or
    not.  Anything else has no box. *)
Definition caixas (h : string) : list (string * bool) :=
  match
    (r1 ← semPrefixo (Mapa.nl ++ "      <input type=" ++ aspas ++ "checkbox"
                      ++ aspas ++ " id=" ++ aspas) h;
     '(_, r2) ← ateAspas r1;
     r3 ← semPrefixo (" value=" ++ aspas) r2;
     ateAspas r3)
  with
  | Some (v, r4) => [(v, comecaCom r4 " checked")]
  | None => []
  end.

(** A text without double quote. *)
Definition semAspas (s : string) : Prop :=
  Forall (fun c => nat_of_ascii c <> 34%nat) (list_ascii_of_string s).

Definition host : Host :=
  {| toLowerCase := paraMinusculas; trim := apara; localeCompare := compara;
     trocaEspacos := troca; herdado := membros; caixasDe := caixas |}.

End Ascii7.

(* ===================================================================== *)
(** ** Vocabulary of the statements *)
(* ===================================================================== *)

Module Espec.

(** [q] occurs in [s]. *)
Definition contem (s q : string) : Prop :=
  exists pre pos, s = (pre ++ q ++ pos)%string.

(** [a] may stay before [b] under the comparator. *)
Definition antes {A} (cmp : A -> A -> Z) (a b : A) : Prop := (cmp a b <= 0)%Z.

(** A comparator that [sort] can rely on. *)
Record Consistente {A} (cmp : A -> A -> Z) : Prop := {
  cons_antisym : forall a b, Z.sgn (cmp b a) = (- Z.sgn (cmp a b))%Z;
  cons_trans : forall a b c, antes cmp a b -> antes cmp b c -> antes cmp a c
}.

(** The comparison form of a text, with surrounding white space removed
    and in lower case: what [normalizeString] makes of it. *)
Definition semCaixa `{Host} (s : string) : string := toLowerCase (trim s).

(** The text field [v] is there (not missing, not empty) and satisfies [P]. *)
Definition campo (v : option string) (P : string -> Prop) : Prop :=
  exists s, v = Some s /\ s <> EmptyString /\ P s.

(** Two text fields that differ at most in letter case. *)
Definition mesmoTexto `{Host} (v w : option string) : Prop :=
  match v, w with
  | Some a, Some b => toLowerCase a = toLowerCase b
  | None, None => True
  | _, _ => False
  end.

(** The state criterion on comparison forms: the state field equals the
    selected state, or the address contains a dash followed by the
    selected state, each text trimmed and in lower case. *)
Definition estadoCombina `{Host} (sel : string) (u : Unidade) : Prop :=
  campo (estado u) (fun e => semCaixa e = semCaixa sel)
  \/ campo (endereco_original u)
        (fun a => contem (semCaixa a) ("-" ++ semCaixa sel)).

(** The state criterion in the words of the specification: the state field
    equals the selected state, or the address contains a dash followed by
    the selected state, letter case aside and nothing else: no white space
    is removed. *)
Definition estadoCombinaLiteral `{Host} (sel : string) (u : Unidade) : Prop :=
  campo (estado u) (fun e => toLowerCase e = toLowerCase sel)
  \/ campo (endereco_original u)
        (fun a => contem (toLowerCase a) ("-" ++ toLowerCase sel)).

(** Whether a unit survives each of the four steps of [applyFilters]. *)
Definition redeAceita (f : Filtros) (u : Unidade) : bool :=
  match f_redes f with
  | [] => true
  | _ :: _ => Filtro.predRede f u
  end.

Definition estadoAceita `{Host} (f : Filtros) (u : Unidade) : bool :=
  if Filtro.estadoSelecionado f then Filtro.predEstado f u else true.

Definition cnpjAceita (f : Filtros) (u : Unidade) : bool :=
  if naoVazio (f_cnpj f) then Filtro.predCnpj f u else true.

Definition nomeAceita `{Host} (f : Filtros) (u : Unidade) : bool :=
  if naoVazio (f_nome f) then Filtro.predNome f u else true.

Definition aceita `{Host} (f : Filtros) (u : Unidade) : bool :=
  redeAceita f u && estadoAceita f u && cnpjAceita f u && nomeAceita f u.

(** The four sort modes: the value of the selector, the field the key is
    read from, whether the order is descending, and the comparator of the
    source. *)
Definition modos `{Host} :
    list (string * (Unidade -> option string) * bool
          * (Unidade -> Unidade -> Z)) :=
  [ ("nome_az", nome, false, Filtro.cmp_nome_az);
    ("nome_za", nome, true, Filtro.cmp_nome_za);
    ("rede_az", rede, false, Filtro.cmp_rede_az);
    ("rede_za", rede, true, Filtro.cmp_rede_za) ].

(** The sort key read from a field: [u.campo || '']. *)
Definition chave (cp : Unidade -> option string) (u : Unidade) : string :=
  ou (cp u) vazio.

(** The units whose key is [k], in list order. *)
Definition comChave (cp : Unidade -> option string) (k : string)
    (l : list Unidade) : list Unidade :=
  List.filter (fun u => String.eqb (chave cp u) k) l.

(** The units whose key the host compares as equal to [k], in list order. *)
Definition comChaveEquivalente `{Host} (cp : Unidade -> option string)
    (k : string) (l : list Unidade) : list Unidade :=
  List.filter (fun u => (localeCompare (chave cp u) k =? 0)%Z) l.

(** Copies of a unit with one text field replaced. *)
Definition comNome (v : option string) (u : Unidade) : Unidade :=
  {| nome := v; rede := rede u; cnpj := cnpj u;
     endereco_original := endereco_original u; estado := estado u;
     latitude := latitude u; longitude := longitude u |}.

Definition comRede (v : option string) (u : Unidade) : Unidade :=
  {| nome := nome u; rede := v; cnpj := cnpj u;
     endereco_original := endereco_original u; estado := estado u;
     latitude := latitude u; longitude := longitude u |}.

Definition comCnpj (v : option string) (u : Unidade) : Unidade :=
  {| nome := nome u; rede := rede u; cnpj := v;
     endereco_original := endereco_original u; estado := estado u;
     latitude := latitude u; longitude := longitude u |}.

Definition comEndereco (v : option string) (u : Unidade) : Unidade :=
  {| nome := nome u; rede := rede u; cnpj := cnpj u;
     endereco_original := v; estado := estado u;
     latitude := latitude u; longitude := longitude u |}.

(** A statement [m], started on page [p], completes without throwing on a
    page and with a value that satisfy [Q]. *)
Definition wp {A} (m : Pagina.M A) (Q : A -> Pagina.Page -> Prop)
    (p : Pagina.Page) : Prop :=
  exists p' a, m p = (p', inr a) /\ Q a p'.

(** Everything on the page except the status text and the heap. *)
Definition resto (p : Pagina.Page) :=
  (Pagina.unidades p, Pagina.unidadesAtuais p, Pagina.clusterGroup p,
   Pagina.markersLayer p, Pagina.clustersAtivos p, Pagina.noMapaCluster p,
   Pagina.noMapaMarkers p, Pagina.form p, Pagina.legend p,
   Pagina.requests p, Pagina.console p).

(** The arrays that exist on [p0] are still there on [p], with the same
    contents. *)
Definition preserva (p0 p : Pagina.Page) : Prop :=
  forall l, l ∈ dom (Pagina.heap p0) ->
            Pagina.heap p !! l = Pagina.heap p0 !! l.

(** While [applyFilters] runs from [p0]: the variable [resultado] refers to
    an array [r] created since [p0], of contents [c]; only new arrays and
    the status text have been written. *)
Definition emCurso (p0 : Pagina.Page) (c : list Unidade) (r : Pagina.loc)
    (p : Pagina.Page) : Prop :=
  resto p = resto p0 /\ preserva p0 p /\
  (dom (Pagina.heap p0) ⊆ dom (Pagina.heap p)) /\
  (r ∉ dom (Pagina.heap p0)) /\ Pagina.heap p !! r = Some c.

End Espec.

(* ===================================================================== *)
(** ** Sample data *)
(* ===================================================================== *)

Module Exemplos.
Import Espec.

Definition alpha : Unidade := {|
  nome := Some "Alpha";
  rede := Some "Novo Mix";
  cnpj := Some "11.111.111/0001-11";
  endereco_original := Some "Av. Paulista 1000, Sao Paulo-SP";
  estado := Some "SP";
  latitude := Some 1%float;
  longitude := Some 1%float
|}.

Definition beta : Unidade := {|
  nome := Some "Beta";
  rede := Some "Rede Mix";
  cnpj := Some "22.222.222/0001-22";
  endereco_original := Some "Rua do Ouvidor 50, Rio de Janeiro-RJ";
  estado := Some "RJ";
  latitude := Some 2%float;
  longitude := Some 2%float
|}.

(** A second unit named Alpha. *)
Definition alphaFilial : Unidade := comCnpj (Some "11.111.111/0002-00") alpha.


(** A unit whose state code comes with white space around it. *)
Definition delta : Unidade := {|
  nome := Some "Delta";
  rede := Some "Novo Mix";
  cnpj := Some "44.444.444/0001-44";
  endereco_original := Some "Av. Brasil 10, Campinas";
  estado := Some " sp ";
  latitude := Some 4%float;
  longitude := Some 4%float
|}.

(** A record without any field. *)
Definition semCampos : Unidade := {|
  nome := None; rede := None; cnpj := None; endereco_original := None;
  estado := None; latitude := None; longitude := None
|}.

(** No network box checked, every other control at its default. *)
Definition nenhumaRede : Filtros := {|
  f_redes := [];
  f_estado := "Todos";
  f_cnpj := EmptyString;
  f_nome := EmptyString;
  f_ordenar := "nome_az"
|}.

(** Only the box of Novo Mix checked. *)
Definition soNovoMix : Filtros := {|
  f_redes := ["Novo Mix"];
  f_estado := "Todos";
  f_cnpj := EmptyString;
  f_nome := EmptyString;
  f_ordenar := "nome_az"
|}.

(** State SP selected, nothing else. *)
Definition soSP : Filtros := {|
  f_redes := [];
  f_estado := "SP";
  f_cnpj := EmptyString;
  f_nome := EmptyString;
  f_ordenar := "nome_az"
|}.

(** State SP selected, name query given, a sort mode the [switch] does not
    know. *)
Definition estadoSP : Filtros := {|
  f_redes := ["Novo Mix"; "Rede Mix"];
  f_estado := "SP";
  f_cnpj := EmptyString;
  f_nome := "ALP";
  f_ordenar := "distancia"
|}.

(** The panel as [renderRedes] and the defaults of the document leave it. *)
Definition formPadrao : Pagina.Form := {|
  Pagina.checkboxes := [("Novo Mix", true); ("Rede Mix", true)];
  Pagina.selectEstado := "Todos";
  Pagina.inputCNPJ := EmptyString;
  Pagina.inputNome := EmptyString;
  Pagina.selectOrdenar := "nome_az"
|}.

(** A server that answers both requests. *)
Definition servidorBom : Pagina.Servidor := {|
  Pagina.respRedes := Pagina.Json ["Novo Mix"; "Rede Mix"];
  Pagina.respAll := Pagina.Json [beta; alpha; semCampos]
|}.

(** A server whose unit list is not JSON. *)
Definition servidorRuim : Pagina.Servidor := {|
  Pagina.respRedes := Pagina.Json ["Novo Mix"; "Rede Mix"];
  Pagina.respAll := Pagina.CorpoInvalido
|}.

(** A page on which the units have been loaded and drawn once. *)
Definition paginaCarregada `{Host} : Pagina.Page :=
  fst (Pagina.carregarDados servidorBom
         (Pagina.paginaInicial "..." formPadrao)).

End Exemplos.

(* ===================================================================== *)
(** ** The control panel: [bindControls] and its listeners *)
(* ===================================================================== *)

Module Controles.
Import Pagina.

Definition com_form (fm : Form) (p : Page) : Page :=
  {| status := status p; heap := heap p; unidades := unidades p;
     unidadesAtuais := unidadesAtuais p; clusterGroup := clusterGroup p;
     markersLayer := markersLayer p; clustersAtivos := clustersAtivos p;
     noMapaCluster := noMapaCluster p; noMapaMarkers := noMapaMarkers p;
     form := fm; legend := legend p; requests := requests p;
     console := console p |}.

Definition com_clustersAtivos (b : bool) (p : Page) : Page :=
  {| status := status p; heap := heap p; unidades := unidades p;
     unidadesAtuais := unidadesAtuais p; clusterGroup := clusterGroup p;
     markersLayer := markersLayer p; clustersAtivos := b;
     noMapaCluster := noMapaCluster p; noMapaMarkers := noMapaMarkers p;
     form := form p; legend := legend p; requests := requests p;
     console := console p |}.

(** The page together with the check box [#toggleClusters], which the
    script reads through the event and writes in the clear action. *)
Record Painel := {
  pagina : Page;
  toggleClusters : bool
}.

(** What the user does to a control before its listener runs. *)
Definition marcar (i : nat) (b : bool) (fm : Form) : Form :=
  {| checkboxes := alter (fun c => (fst c, b)) i (checkboxes fm);
     selectEstado := selectEstado fm; inputCNPJ := inputCNPJ fm;
     inputNome := inputNome fm; selectOrdenar := selectOrdenar fm |}.

Definition com_estado (v : string) (fm : Form) : Form :=
  {| checkboxes := checkboxes fm; selectEstado := v;
     inputCNPJ := inputCNPJ fm; inputNome := inputNome fm;
     selectOrdenar := selectOrdenar fm |}.

Definition com_cnpj (v : string) (fm : Form) : Form :=
  {| checkboxes := checkboxes fm; selectEstado := selectEstado fm;
     inputCNPJ := v; inputNome := inputNome fm;
     selectOrdenar := selectOrdenar fm |}.

Definition com_nome (v : string) (fm : Form) : Form :=
  {| checkboxes := checkboxes fm; selectEstado := selectEstado fm;
     inputCNPJ := inputCNPJ fm; inputNome := v;
     selectOrdenar := selectOrdenar fm |}.

Definition com_ordenar (v : string) (fm : Form) : Form :=
  {| checkboxes := checkboxes fm; selectEstado := selectEstado fm;
     inputCNPJ := inputCNPJ fm; inputNome := inputNome fm;
     selectOrdenar := v |}.

(** The assignments of the clear action to the filter controls: every box
    checked, the state selector on Todos, both texts empty, the sort
    selector on nome_az.  The two selectors are taken to offer these
    options. *)
Definition formLimpo (fm : Form) : Form :=
  {| checkboxes := map (fun c => (fst c, true)) (checkboxes fm);
     selectEstado := "Todos";
     inputCNPJ := EmptyString;
     inputNome := EmptyString;
     selectOrdenar := "nome_az" |}.

Section ComHost.
Context `{Host}.

(** [function onFiltroChange(){ applyFilters(); }] *)
Definition onFiltroChange : M () := semAwait applyFilters.

(** The listener of [#toggleClusters]:
    [e => { clustersAtivos = e.target.checked; applyFilters(); }] *)
Definition aoAlternarClusters (checked : bool) : M () :=
  escrever (com_clustersAtivos checked);;
  semAwait applyFilters.

(** The listener of [#btnClearFilters], on the page. *)
Definition aoLimpar : M () :=
  escrever (fun p => com_form (formLimpo (form p)) p);;
  escrever (com_clustersAtivos true);;
  semAwait applyFilters.

(** One event of the panel: the edit the browser makes to the control, if
    any, and the listener that runs.  [Confirmou] is an event that reaches
    [onFiltroChange] with nothing new in the form, as the [change] event
    that follows the [input] event of the same edit; [MarcouRede] with an
    index beyond the last box changes no box. *)
Inductive Evento :=
| MarcouRede (i : nat) (b : bool)
| EscolheuEstado (v : string)
| DigitouCNPJ (v : string)
| DigitouNome (v : string)
| EscolheuOrdenar (v : string)
| Confirmou
| AlternouClusters (b : bool)
| Limpou.

Definition aposEdicao (g : Form -> Form) (pn : Painel) : Painel :=
  {| pagina := fst (onFiltroChange (com_form (g (form (pagina pn))) (pagina pn)));
     toggleClusters := toggleClusters pn |}.

Definition reagir (e : Evento) (pn : Painel) : Painel :=
  match e with
  | MarcouRede i b => aposEdicao (marcar i b) pn
  | EscolheuEstado v => aposEdicao (com_estado v) pn
  | DigitouCNPJ v => aposEdicao (com_cnpj v) pn
  | DigitouNome v => aposEdicao (com_nome v) pn
  | EscolheuOrdenar v => aposEdicao (com_ordenar v) pn
  | Confirmou => aposEdicao (fun fm => fm) pn
  | AlternouClusters b =>
      {| pagina := fst (aoAlternarClusters b (pagina pn));
         toggleClusters := b |}
  | Limpou =>
      {| pagina := fst (aoLimpar (pagina pn)); toggleClusters := true |}
  end.

(** The events of a session, oldest first. *)
Definition executar (evs : list Evento) (pn : Painel) : Painel :=
  fold_left (fun q e => reagir e q) evs pn.

End ComHost.

End Controles.

(* ===================================================================== *)
(** ** Further vocabulary *)
(* ===================================================================== *)

Module EspecPainel.
Import Pagina Controles.

(** A unit [criarMarcador] makes a marker for. *)
Definition geocodificada (u : Unidade) : bool :=
  truthyNum (latitude u) && truthyNum (longitude u).

(** Criteria that differ at most in the sort mode. *)
Definition mesmosFiltros (f g : Filtros) : Prop :=
  f_redes f = f_redes g /\ f_estado f = f_estado g /\
  f_cnpj f = f_cnpj g /\ f_nome f = f_nome g.

(** No filter step is active. *)
Definition semFiltro (f : Filtros) : Prop :=
  f_redes f = [] /\
  (f_estado f = EmptyString \/ f_estado f = "Todos") /\
  f_cnpj f = EmptyString /\ f_nome f = EmptyString.

(** The map shows what the form asks for: the array [unidadesAtuais] is
    the result for the unit list [us] and the criteria in the form, its
    markers are on [markersLayer] and are what the user sees, and the layer
    attached to the map is the one chosen by [clustersAtivos]. *)
Definition emDia `{Host} (us : list Unidade) (p : Page) : Prop :=
  heap p !! unidades p = Some us /\
  status p = "Dados atualizados." /\
  deref p (unidadesAtuais p)
    = Filtro.resultado us (lerFiltrosForm (form p)) /\
  markersLayer p
    = Mapa.marcadores (Filtro.resultado us (lerFiltrosForm (form p))) /\
  visiveis p
    = Mapa.marcadores (Filtro.resultado us (lerFiltrosForm (form p))) /\
  clusterGroup p = (if clustersAtivos p then markersLayer p else []) /\
  noMapaCluster p = clustersAtivos p /\
  noMapaMarkers p = negb (clustersAtivos p).

(** The network names of the boxes. *)
Definition nomesDasRedes (p : Page) : list string :=
  map fst (checkboxes (form p)).

(** The page at the end of [applyFilters], when the array [resultado] is
    [r] on page [q]: the map is redrawn from it and the status is set. *)
Definition redesenhada `{Host} (r : loc) (q : Page) : Page :=
  com_status "Dados atualizados." (fst (atualizarMapa r q)).

(** The check box mirrors the variable. *)
Definition espelhado (pn : Painel) : Prop :=
  toggleClusters pn = clustersAtivos (pagina pn).

(** Events whose listener assigns [clustersAtivos]. *)
Definition atribuiClusters (e : Evento) : Prop :=
  match e with
  | AlternouClusters _ | Limpou => True
  | _ => False
  end.

End EspecPainel.

(* ===================================================================== *)
(** ** More sample data *)
(* ===================================================================== *)

Module ExemplosPainel.
Import Espec Exemplos Mapa Controles.

(** [nenhumaRede] with the names in descending order. *)
Definition nenhumaRedeZa : Filtros := {|
  f_redes := [];
  f_estado := "Todos";
  f_cnpj := EmptyString;
  f_nome := EmptyString;
  f_ordenar := "nome_za"
|}.

(** [alpha] as another source might spell it: state and address in lower
    case. *)
Definition alphaMinusculas : Unidade := {|
  nome := Some "Alpha";
  rede := Some "Novo Mix";
  cnpj := Some "11.111.111/0001-11";
  endereco_original := Some "av. paulista 1000, sao paulo-sp";
  estado := Some "sp";
  latitude := Some 1%float;
  longitude := Some 1%float
|}.

(** [estadoSP] with the state in lower case. *)
Definition estadoSPMinusculo : Filtros := {|
  f_redes := ["Novo Mix"; "Rede Mix"];
  f_estado := "sp";
  f_cnpj := EmptyString;
  f_nome := "ALP";
  f_ordenar := "distancia"
|}.

(** A unit whose name carries markup. *)
Definition alphaMarcado : Unidade := comNome (Some "<b>Alpha</b>") alpha.

(** The marker of [alpha]. *)
Definition marcadorAlpha : Marker := {|
  latlng := (1%float, 1%float);
  icon := {|
    className := "custom-marker";
    html := "<div style=" ++ aspas
            ++ "width:100%;height:100%;border-radius:50%;background:#1f77b4"
            ++ aspas ++ "></div>";
    iconSize := (24, 24)%Z;
    iconAnchor := (12, 12)%Z |};
  popup := makePopupHtml alpha
|}.

(** A server that does not answer the first request. *)
Definition servidorMudo : Pagina.Servidor := {|
  Pagina.respRedes := Pagina.FalhaRede;
  Pagina.respAll := Pagina.Json [alpha]
|}.

(** The panel on the loaded page, clustering on. *)
Definition painelCarregado `{Host} : Painel :=
  {| pagina := paginaCarregada; toggleClusters := true |}.

(** A short session: a name is typed, clustering is switched off, the
    filters are cleared. *)
Definition sessao : list Evento :=
  [DigitouNome "al"; AlternouClusters false; Limpou].

End ExemplosPainel.

(* ********************************************************************* *)
(** * Properties *)
(* ********************************************************************* *)

Import Espec.

(** ** Strings *)

Module StringFacts.

Lemma app_String (a : ascii) (s t : string) :
  (String a s ++ t)%string = String a (s ++ t)%string.
Proof. reflexivity. Qed.

Lemma app_vazio (t : string) : (EmptyString ++ t)%string = t.
Proof. reflexivity. Qed.

Lemma anexa_assoc (a b c : string) :
  ((a ++ b) ++ c)%string = (a ++ (b ++ c))%string.
Proof.
  induction a as [|x a IH]; [reflexivity|].
  rewrite !app_String. by rewrite IH.
Qed.

Lemma comecaCom_spec (s q : string) :
  comecaCom s q = true <-> exists pos, s = (q ++ pos)%string.
Proof.
  revert s. induction q as [|b q IH]; intros s; simpl.
  - split; [intros _; exists s; reflexivity | reflexivity].
  - destruct s as [|a s].
    + split; [discriminate | intros [pos Hp]; discriminate].
    + destruct (Ascii.eqb_spec a b) as [->|Hne].
      * rewrite IH. split; intros [pos Hp]; exists pos;
          rewrite app_String in *; congruence.
      * split; [discriminate|].
        intros [pos Hp]. rewrite app_String in Hp. congruence.
Qed.

Lemma includes_spec (s q : string) :
  includes s q = true <-> contem s q.
Proof.
  unfold contem. induction s as [|a s IH]; simpl.
  - destruct (comecaCom EmptyString q) eqn:E.
    + apply comecaCom_spec in E as [pos Hp].
      split; [intros _; exists EmptyString, pos; exact Hp | reflexivity].
    + split; [discriminate|]. intros (pre & pos & Hp).
      destruct pre; [|discriminate]. rewrite app_vazio in Hp.
      assert (comecaCom EmptyString q = true) by (apply comecaCom_spec; eauto).
      congruence.
  - destruct (comecaCom (String a s) q) eqn:E.
    + apply comecaCom_spec in E as [pos Hp].
      split; [intros _; exists EmptyString, pos; exact Hp | reflexivity].
    + rewrite IH. split.
      * intros (pre & pos & ->). exists (String a pre), pos. reflexivity.
      * intros (pre & pos & Hp). destruct pre as [|c pre].
        -- rewrite app_vazio in Hp.
           assert (comecaCom (String a s) q = true)
             by (apply comecaCom_spec; eauto).
           congruence.
        -- rewrite app_String in Hp. injection Hp as _ ->. eauto.
Qed.

Lemma naoVazio_true (s : string) : naoVazio s = true <-> s <> EmptyString.
Proof. destruct s; simpl; split; congruence. Qed.

End StringFacts.

(** ** The sort of the host *)

Module SortFacts.

Section Geral.
Context {A : Type} (cmp : A -> A -> Z).

Lemma insere_perm (x : A) (l : list A) : Permutation (insere cmp x l) (x :: l).
Proof.
  induction l as [|y l IH]; simpl; [reflexivity|].
  destruct (cmp x y <=? 0)%Z; [reflexivity|].
  rewrite IH. apply perm_swap.
Qed.

(** Sorting keeps every element, with its multiplicity. *)
Lemma sort_perm (l : list A) : Permutation (sort cmp l) l.
Proof.
  induction l as [|x l IH]; simpl; [reflexivity|].
  rewrite insere_perm. by constructor.
Qed.

Lemma sort_In (l : list A) (x : A) : In x (sort cmp l) <-> In x l.
Proof.
  split; apply Permutation_in; [|symmetry]; apply sort_perm.
Qed.

(** A list already in order is left as it is. *)
Lemma sort_ordenada (l : list A) : Sorted (antes cmp) l -> sort cmp l = l.
Proof.
  induction 1 as [|x l Hs IH Hd]; simpl; [reflexivity|].
  fold (sort cmp l). rewrite IH.
  destruct Hd as [|y l Hxy]; simpl; [reflexivity|].
  unfold antes in Hxy. apply Z.leb_le in Hxy. by rewrite Hxy.
Qed.

(** Stability, in the form used below: the elements selected by [sel] are
    pairwise allowed to stay in place, so each of them is inserted in front
    of the selected elements that followed it. *)
Lemma insere_filter (sel : A -> bool) (x : A) (l : list A) :
  (forall a b, sel a = true -> sel b = true -> antes cmp a b) ->
  List.filter sel (insere cmp x l) = List.filter sel (x :: l).
Proof.
  intros Hsel. induction l as [|y l IH]; [reflexivity|].
  simpl. destruct (cmp x y <=? 0)%Z eqn:E; [reflexivity|].
  simpl. simpl in IH. rewrite IH.
  destruct (sel x) eqn:Ex, (sel y) eqn:Ey; try reflexivity.
  specialize (Hsel x y Ex Ey). unfold antes in Hsel.
  apply Z.leb_le in Hsel. congruence.
Qed.

Lemma sort_filter (sel : A -> bool) (l : list A) :
  (forall a b, sel a = true -> sel b = true -> antes cmp a b) ->
  List.filter sel (sort cmp l) = List.filter sel l.
Proof.
  intros Hsel. induction l as [|x l IH]; [reflexivity|].
  simpl. fold (sort cmp l). rewrite insere_filter by assumption.
  simpl. by rewrite IH.
Qed.

Context (Hc : Consistente cmp).

Lemma depois_antes (a b : A) : (cmp a b <=? 0)%Z = false -> antes cmp b a.
Proof.
  intros E. apply Z.leb_gt in E. unfold antes.
  pose proof (cons_antisym cmp Hc a b) as Hs. lia.
Qed.

Lemma insere_ordenada (x : A) (l : list A) :
  Sorted (antes cmp) l -> Sorted (antes cmp) (insere cmp x l).
Proof.
  induction 1 as [|y l Hs IH Hd]; simpl.
  - repeat constructor.
  - destruct (cmp x y <=? 0)%Z eqn:E.
    + apply Z.leb_le in E. repeat constructor; assumption.
    + constructor; [exact IH|].
      destruct Hd as [|z l Hyz]; simpl.
      * constructor. by apply depois_antes.
      * destruct (cmp x z <=? 0)%Z; constructor;
          [by apply depois_antes | assumption].
Qed.

Lemma sort_Sorted (l : list A) : Sorted (antes cmp) (sort cmp l).
Proof.
  induction l as [|x l IH]; simpl; [constructor|].
  by apply insere_ordenada.
Qed.

(** The output is in order: every element may stay before all the
    elements after it. *)
Lemma sort_StronglySorted (l : list A) : StronglySorted (antes cmp) (sort cmp l).
Proof.
  apply Sorted_StronglySorted; [|apply sort_Sorted].
  intros a b c. apply (cons_trans cmp Hc).
Qed.

Lemma sort_sort (l : list A) : sort cmp (sort cmp l) = sort cmp l.
Proof. apply sort_ordenada, sort_Sorted. Qed.

End Geral.

End SortFacts.

(** ** The filter engine *)

Module FiltroFacts.
Import Filtro StringFacts SortFacts.

Lemma filter_filter {A} (p q : A -> bool) (l : list A) :
  List.filter q (List.filter p l) = List.filter (fun x => p x && q x) l.
Proof.
  induction l as [|x l IH]; simpl; [reflexivity|].
  destruct (p x); simpl; [destruct (q x)|]; by rewrite IH.
Qed.

Lemma filter_guarda {A} (g : bool) (p : A -> bool) (l : list A) :
  (if g then List.filter p l else l)
  = List.filter (fun x => if g then p x else true) l.
Proof.
  destruct g; [reflexivity|].
  induction l as [|x l IH]; simpl; [reflexivity|]. by rewrite <- IH.
Qed.

Lemma filter_todos {A} (p : A -> bool) (l : list A) :
  (forall x, In x l -> p x = true) -> List.filter p l = l.
Proof.
  induction l as [|x l IH]; simpl; intros Hp; [reflexivity|].
  rewrite (Hp x) by auto. rewrite IH by auto. reflexivity.
Qed.

Lemma filter_sublist {A} (p : A -> bool) (l : list A) :
  sublist (List.filter p l) l.
Proof.
  induction l as [|x l IH]; simpl; [constructor|].
  destruct (p x); by constructor.
Qed.

Section ComHost.
Context `{Host}.

Lemma passoRede_filter (f : Filtros) (l : list Unidade) :
  passoRede f l = List.filter (redeAceita f) l.
Proof.
  unfold passoRede, redeAceita. destruct (f_redes f); [|reflexivity].
  symmetry. by apply filter_todos.
Qed.

(** The four steps together are one filter by [aceita]. *)
Lemma filtrar_filter (f : Filtros) (l : list Unidade) :
  filtrar f l = List.filter (aceita f) l.
Proof.
  unfold filtrar, passoNome, passoCnpj, passoEstado.
  rewrite passoRede_filter, !filter_guarda, !filter_filter.
  apply List.filter_ext. intros u.
  unfold aceita, estadoAceita, cnpjAceita, nomeAceita.
  by rewrite !andb_assoc.
Qed.

Lemma ordenar_perm (modo : string) (l : list Unidade) :
  Permutation (ordenar modo l) l.
Proof.
  unfold ordenar.
  repeat match goal with |- context [String.eqb ?a ?b] =>
    destruct (String.eqb a b) end;
  try apply sort_perm; reflexivity.
Qed.

(** A unit is shown exactly when it is in the list and survives the four
    steps. *)
Lemma resultado_In (us : list Unidade) (f : Filtros) (u : Unidade) :
  In u (resultado us f) <-> In u us /\ aceita f u = true.
Proof.
  unfold resultado. rewrite filtrar_filter, <- filter_In.
  split; apply Permutation_in; [|symmetry]; apply ordenar_perm.
Qed.

(** With a sort mode outside the four of the [switch], nothing is sorted. *)
Lemma ordenar_outro (modo : string) (l : list Unidade) :
  modo <> "nome_az" -> modo <> "nome_za" ->
  modo <> "rede_az" -> modo <> "rede_za" ->
  ordenar modo l = l.
Proof.
  intros H1 H2 H3 H4. unfold ordenar.
  apply String.eqb_neq in H1, H2, H3, H4.
  by rewrite H1, H2, H3, H4.
Qed.

Context {HL : HostLaws _}.

Lemma localeCompare_refl (s : string) : localeCompare s s = 0%Z.
Proof. pose proof (localeCompare_antisym s s). lia. Qed.

Lemma chave_az_consistente (chave : Unidade -> string) :
  Consistente (fun a b => localeCompare (chave a) (chave b)).
Proof.
  split.
  - intros a b. apply localeCompare_antisym.
  - intros a b c. unfold antes. apply localeCompare_trans.
Qed.

Lemma chave_za_consistente (chave : Unidade -> string) :
  Consistente (fun a b => localeCompare (chave b) (chave a)).
Proof.
  split.
  - intros a b. apply localeCompare_antisym.
  - intros a b c. unfold antes. intros Hab Hbc.
    exact (localeCompare_trans _ _ _ Hbc Hab).
Qed.

(** Every comparator of the table is consistent. *)
Lemma modos_consistente m cp desc cmp :
  In (m, cp, desc, cmp) modos -> Consistente cmp.
Proof.
  unfold modos. simpl.
  intros [E|[E|[E|[E|[]]]]]; injection E as <- <- <- <-;
    first [apply chave_az_consistente | apply chave_za_consistente].
Qed.

(** Each comparator compares the keys of its field with [localeCompare],
    the descending ones with the arguments exchanged. *)
Lemma modos_cmp m cp desc cmp a b :
  In (m, cp, desc, cmp) modos ->
  cmp a b = if desc : bool
            then localeCompare (chave cp b) (chave cp a)
            else localeCompare (chave cp a) (chave cp b).
Proof.
  unfold modos. simpl.
  intros [E|[E|[E|[E|[]]]]]; injection E as <- <- <- <-; reflexivity.
Qed.

(** Units with the same key may stay in place under every comparator. *)
Lemma modos_mesma_chave m cp desc cmp a b :
  In (m, cp, desc, cmp) modos -> chave cp a = chave cp b -> antes cmp a b.
Proof.
  intros Hm Hk. unfold antes. rewrite (modos_cmp _ _ _ _ _ _ Hm), Hk.
  destruct desc; rewrite localeCompare_refl; lia.
Qed.

(** So may units whose keys the host compares as equal to the same text. *)
Lemma modos_chave_equivalente m cp desc cmp k a b :
  In (m, cp, desc, cmp) modos ->
  localeCompare (chave cp a) k = 0%Z -> localeCompare (chave cp b) k = 0%Z ->
  antes cmp a b.
Proof.
  intros Hm Ha Hb. unfold antes. rewrite (modos_cmp _ _ _ _ _ _ Hm).
  pose proof (localeCompare_antisym (chave cp a) k) as Sa.
  pose proof (localeCompare_antisym (chave cp b) k) as Sb.
  rewrite Ha in Sa. rewrite Hb in Sb. simpl in Sa, Sb.
  destruct desc.
  - apply (localeCompare_trans _ k); lia.
  - apply (localeCompare_trans _ k); lia.
Qed.

Lemma modos_ordenar m cp desc cmp l :
  In (m, cp, desc, cmp) modos -> ordenar m l = sort cmp l.
Proof.
  unfold modos. simpl.
  intros [E|[E|[E|[E|[]]]]]; injection E as <- <- <- <-; reflexivity.
Qed.

Lemma ordenar_ordenar (modo : string) (l : list Unidade) :
  ordenar modo (ordenar modo l) = ordenar modo l.
Proof.
  unfold ordenar.
  repeat match goal with |- context [String.eqb ?a ?b] =>
    destruct (String.eqb a b) end;
  try reflexivity; apply sort_sort;
  first [apply chave_az_consistente | apply chave_za_consistente].
Qed.

End ComHost.

End FiltroFacts.

(** ** The 7-bit host satisfies the laws *)

Module Ascii7Facts.
Import Ascii7.

Lemma espaco_minuscula (c : ascii) : espaco (minuscula c) = espaco c.
Proof. destruct c as [[] [] [] [] [] [] [] []]; reflexivity. Qed.

Lemma aparaInicio_minusculas (s : string) :
  paraMinusculas (aparaInicio s) = aparaInicio (paraMinusculas s).
Proof.
  induction s as [|c s IH]; simpl; [reflexivity|].
  rewrite espaco_minuscula. destruct (espaco c); [exact IH | reflexivity].
Qed.

Lemma aparaFim_minusculas (s : string) :
  paraMinusculas (aparaFim s) = aparaFim (paraMinusculas s).
Proof.
  induction s as [|c s IH]; simpl; [reflexivity|].
  rewrite <- IH, espaco_minuscula.
  destruct (aparaFim s); simpl; [destruct (espaco c)|]; reflexivity.
Qed.

Lemma compare_nao_Gt_trans (a b c : string) :
  String.compare a b <> Gt -> String.compare b c <> Gt ->
  String.compare a c <> Gt.
Proof.
  revert b c. induction a as [|x a IH]; intros [|y b] [|z c]; simpl;
    try congruence.
  unfold Ascii.compare.
  destruct (N.compare_spec (N_of_ascii x) (N_of_ascii y)) as [Exy|Lxy|Gxy];
  destruct (N.compare_spec (N_of_ascii y) (N_of_ascii z)) as [Eyz|Lyz|Gyz];
  destruct (N.compare_spec (N_of_ascii x) (N_of_ascii z)) as [Exz|Lxz|Gxz];
    try congruence; try lia.
  apply IH.
Qed.

Lemma compara_le (a b : string) :
  (compara a b <= 0)%Z <-> String.compare a b <> Gt.
Proof. unfold compara. destruct (String.compare a b); split; (lia || congruence). Qed.

Lemma host_laws : HostLaws host.
Proof.
  split; simpl.
  - intros a b. unfold compara. rewrite (String.compare_antisym a b).
    destruct (String.compare b a); reflexivity.
  - intros a b c. rewrite !compara_le. apply compare_nao_Gt_trans.
  - intros s. unfold apara.
    by rewrite aparaFim_minusculas, aparaInicio_minusculas.
  - intros [|c s]; simpl; split; congruence.
Qed.

(** *** The reader of rows *)

#[local] Existing Instance host.

Lemma semPrefixo_app (q s : string) : semPrefixo q (q ++ s) = Some s.
Proof.
  induction q as [|c q IH]; [by destruct s|].
  rewrite StringFacts.app_String. simpl. by rewrite Ascii.eqb_refl.
Qed.

Lemma ateAspas_app (a r : string) :
  semAspas a -> ateAspas (a ++ aspas ++ r) = Some (a, r).
Proof.
  unfold semAspas. induction a as [|c a IH]; intros Ha.
  - reflexivity.
  - inversion Ha as [|? ? Hc Ha']; subst.
    rewrite StringFacts.app_String. cbn [ateAspas].
    apply Nat.eqb_neq in Hc. rewrite Hc, (IH Ha'). reflexivity.
Qed.

Lemma semAspas_troca (b : bool) (s : string) :
  semAspas s -> semAspas (trocaDesde b s).
Proof.
  unfold semAspas. revert b. induction s as [|c s IH]; simpl; intros b Hs.
  - constructor.
  - inversion Hs as [|? ? Hc Hs']; subst.
    destruct (espaco c); [destruct b|]; simpl;
      [by apply IH | constructor; [discriminate | by apply IH]
      | constructor; [exact Hc | by apply IH]].
Qed.

Lemma nomeSimples_semAspas (r : string) : Pagina.nomeSimples r -> semAspas r.
Proof.
  unfold Pagina.nomeSimples, semAspas. apply List.Forall_impl.
  intros c Hc E. apply Hc. rewrite E. by left.
Qed.

Lemma html_laws : Pagina.HtmlLaws host.
Proof.
  split. intros r Hr.
  assert (Hid : semAspas (Pagina.safeId r)).
  { unfold Pagina.safeId. simpl.
    repeat (constructor; [discriminate|]).
    apply semAspas_troca. by apply nomeSimples_semAspas. }
  assert (E : exists R,
    Pagina.linhaHtml r
    = ((Mapa.nl ++ "      <input type=" ++ aspas ++ "checkbox" ++ aspas
        ++ " id=" ++ aspas)
       ++ (Pagina.safeId r ++ aspas
           ++ ((" value=" ++ aspas)
               ++ (r ++ aspas ++ (" checked>" ++ R)))))%string)
    by (eexists; reflexivity).
  destruct E as [R E].
  change (caixasDe (Pagina.linhaHtml r)) with (caixas (Pagina.linhaHtml r)).
  unfold caixas. rewrite E, semPrefixo_app. cbn [mbind option_bind].
  rewrite (ateAspas_app _ _ Hid). cbn [mbind option_bind].
  rewrite semPrefixo_app. cbn [mbind option_bind].
  rewrite (ateAspas_app _ _ (nomeSimples_semAspas r Hr)).
  reflexivity.
Qed.

End Ascii7Facts.

(** ** What the filter engine guarantees *)

Module FiltroTeoremas.
Import Filtro StringFacts SortFacts FiltroFacts Exemplos.

Lemma truthy_campo (v : option string) :
  truthy v = true <-> campo v (fun _ => True).
Proof.
  unfold campo. destruct v as [s|]; simpl.
  - rewrite naoVazio_true. split.
    + intros Hs. exists s. auto.
    + intros (s' & E & Hs & _). congruence.
  - split; [discriminate | intros (s' & E & _); discriminate].
Qed.

Lemma safeText_Some (s : string) : safeText (Some s) = s.
Proof. unfold safeText, ou. simpl. by destruct s. Qed.

Section ComHost.
Context `{Host}.

Lemma normalizeString_Some (s : string) :
  normalizeString (Some s) = semCaixa s.
Proof. unfold normalizeString, semCaixa. by rewrite safeText_Some. Qed.

(** C1 (amended).  When no network is selected the network step is skipped:
    a unit is shown exactly when it is in the list and passes the state,
    tax-identifier and name steps, whatever its network. *)
Theorem rede_vazia_nao_filtra (us : list Unidade) (f : Filtros) :
  f_redes f = [] ->
  passoRede f us = us /\
  forall u, In u (resultado us f) <->
            In u us /\
            estadoAceita f u && cnpjAceita f u && nomeAceita f u = true.
Proof.
  intros Hr. split.
  - unfold passoRede. by rewrite Hr.
  - intros u. rewrite resultado_In. unfold aceita, redeAceita.
    by rewrite Hr.
Qed.

(** C5 (amended).  With a specific state selected, the state step keeps
    exactly the units whose state field equals the selection, or whose
    address contains a dash followed by the selection, where every text is
    compared with its surrounding white space removed and in lower
    case. *)
Theorem estado_aceita_sse (f : Filtros) (u : Unidade) (us : list Unidade) :
  f_estado f <> EmptyString -> f_estado f <> "Todos" ->
  (In u (passoEstado f us) <-> In u us /\ estadoCombina (f_estado f) u).
Proof.
  intros Hv Ht. unfold passoEstado, estadoSelecionado.
  apply naoVazio_true in Hv. apply String.eqb_neq in Ht.
  rewrite Hv, Ht. simpl. rewrite filter_In.
  apply and_iff_compat_l.
  unfold predEstado, estadoCombina, campo.
  rewrite orb_true_iff, !andb_true_iff, String.eqb_eq, includes_spec.
  rewrite normalizeString_Some.
  split.
  - intros [[Hp He]|[Hp Hc]].
    + left. destruct (estado u) as [e|]; [|discriminate].
      rewrite normalizeString_Some in He. apply naoVazio_true in Hp.
      exists e. auto.
    + right. destruct (endereco_original u) as [a|]; [|discriminate].
      rewrite normalizeString_Some in Hc. apply naoVazio_true in Hp.
      exists a. auto.
  - intros [(e & -> & Hne & He)|(a & -> & Hne & Hc)].
    + left. rewrite normalizeString_Some.
      split; [by apply naoVazio_true | assumption].
    + right. rewrite normalizeString_Some.
      split; [by apply naoVazio_true | assumption].
Qed.

(** C10.  With a sort mode that is none of the four of the [switch] the
    result is the list of the surviving units in the order they have in the
    unit list. *)
Theorem modo_desconhecido_nao_ordena (us : list Unidade) (f : Filtros) :
  f_ordenar f <> "nome_az" -> f_ordenar f <> "nome_za" ->
  f_ordenar f <> "rede_az" -> f_ordenar f <> "rede_za" ->
  resultado us f = List.filter (aceita f) us /\
  sublist (resultado us f) us.
Proof.
  intros H1 H2 H3 H4. unfold resultado.
  rewrite ordenar_outro, filtrar_filter by assumption.
  split; [reflexivity | apply filter_sublist].
Qed.

Context {HL : HostLaws _}.

(** C6.  Running the filter-and-sort computation on its own result, with
    the same criteria, returns that result. *)
Theorem resultado_idempotente (us : list Unidade) (f : Filtros) :
  resultado (resultado us f) f = resultado us f.
Proof.
  unfold resultado at 1 3.
  rewrite (filtrar_filter f (resultado us f)).
  rewrite filter_todos.
  - unfold resultado. apply ordenar_ordenar.
  - intros u Hu. by apply resultado_In in Hu as [_ Hu].
Qed.

(** C7.  For each of the four sort modes the result is the filtered list
    sorted by the comparator of the mode: the sort comes after the four
    filter steps, keeps every filtered unit, puts them in order, keeps
    units with equal keys (identical, or equal for the host) in their input
    order, and reads the key of a unit whose field is missing or empty as
    the empty string. *)
Theorem ordenacao_estavel_total m cp desc cmp (us : list Unidade) (f : Filtros) :
  In (m, cp, desc, cmp) modos -> f_ordenar f = m ->
  resultado us f = sort cmp (filtrar f us) /\
  Permutation (resultado us f) (filtrar f us) /\
  StronglySorted (antes cmp) (resultado us f) /\
  (forall k, comChave cp k (resultado us f) = comChave cp k (filtrar f us)) /\
  (forall k, comChaveEquivalente cp k (resultado us f)
             = comChaveEquivalente cp k (filtrar f us)) /\
  (forall a b, cmp a b = if desc
                         then localeCompare (chave cp b) (chave cp a)
                         else localeCompare (chave cp a) (chave cp b)) /\
  (forall u, cp u = None \/ cp u = Some EmptyString -> chave cp u = EmptyString).
Proof.
  intros Hm Hf.
  assert (E : resultado us f = sort cmp (filtrar f us)).
  { unfold resultado. rewrite Hf. by apply (modos_ordenar _ cp desc). }
  rewrite E. repeat split.
  - apply sort_perm.
  - apply sort_StronglySorted. by apply (modos_consistente m cp desc).
  - intros k. unfold comChave. apply sort_filter.
    intros a b Ha Hb. apply String.eqb_eq in Ha, Hb.
    apply (modos_mesma_chave m cp desc); [assumption | congruence].
  - intros k. unfold comChaveEquivalente. apply sort_filter.
    intros a b Ha Hb. apply Z.eqb_eq in Ha, Hb.
    by apply (modos_chave_equivalente m cp desc cmp k).
  - intros a b. by apply (modos_cmp m).
  - intros u [E'|E']; unfold chave, ou; by rewrite E'.
Qed.

Lemma naoVazio_minusculas (a b : string) :
  toLowerCase a = toLowerCase b -> naoVazio a = naoVazio b.
Proof.
  intros E.
  assert (E0 : toLowerCase EmptyString = EmptyString)
    by (by apply toLowerCase_vazio).
  destruct a as [|ca a], b as [|cb b]; try reflexivity; exfalso.
  - rewrite E0 in E. symmetry in E.
    pose proof (proj1 (toLowerCase_vazio _) E). discriminate.
  - rewrite E0 in E.
    pose proof (proj1 (toLowerCase_vazio _) E). discriminate.
Qed.




End ComHost.

End FiltroTeoremas.

(** ** The filter engine on the sample data *)

Module FiltroExemplos.
Import Filtro Exemplos FiltroTeoremas.

#[local] Existing Instance Ascii7.host.

(** The scenario of the specification: selecting Novo Mix shows Alpha only. *)
Example so_novo_mix : resultado [alpha; beta] soNovoMix = [alpha].
Proof. reflexivity. Qed.

Example ordena_por_nome : resultado [beta; alpha] nenhumaRede = [alpha; beta].
Proof. reflexivity. Qed.

Example estado_e_nome : resultado [beta; alpha] estadoSP = [alpha].
Proof. reflexivity. Qed.

(** Two units of the same name stay in the order of the unit list, in the
    ascending and in the descending mode. *)
Example mesmo_nome_az :
  resultado [beta; alphaFilial; alpha] nenhumaRede = [alphaFilial; alpha; beta].
Proof. reflexivity. Qed.

Example mesmo_nome_za :
  ordenar "nome_za" [alphaFilial; beta; alpha] = [beta; alphaFilial; alpha].
Proof. reflexivity. Qed.

(** C1 as stated fails: with no network selected both units are shown. *)
Lemma rede_vazia_mostra_unidades :
  f_redes nenhumaRede = [] /\
  resultado [alpha; beta] nenhumaRede = [alpha; beta] /\
  resultado [alpha; beta] nenhumaRede <> [].
Proof.
  split; [reflexivity|]. split; [reflexivity|].
  vm_compute. discriminate.
Qed.

Lemma rede_vazia_nao_filtra_witness :
  f_redes nenhumaRede = [] /\
  (passoRede nenhumaRede [alpha; beta] = [alpha; beta] /\
   forall u, In u (resultado [alpha; beta] nenhumaRede) <->
             In u [alpha; beta] /\
             estadoAceita nenhumaRede u && cnpjAceita nenhumaRede u
               && nomeAceita nenhumaRede u = true).
Proof.
  split; [reflexivity|].
  apply (rede_vazia_nao_filtra [alpha; beta] nenhumaRede). reflexivity.
Defined.



(** C5 as stated fails: the state field is trimmed before it is compared,
    so a unit whose state is written with spaces around it is kept, though
    its state does not equal the selection letter case aside and its
    address does not contain the pattern. *)
Lemma estado_com_espacos_aceito :
  f_estado soSP <> EmptyString /\ f_estado soSP <> "Todos" /\
  In delta (passoEstado soSP [delta]) /\
  resultado [delta] soSP = [delta] /\
  ~ estadoCombinaLiteral (f_estado soSP) delta.
Proof.
  split; [discriminate|]. split; [discriminate|].
  split; [left; reflexivity|]. split; [reflexivity|].
  intros [(e & E & _ & He)|(a & E & _ & Ha)].
  - injection E as <-. vm_compute in He. discriminate.
  - injection E as <-. apply StringFacts.includes_spec in Ha.
    vm_compute in Ha. discriminate.
Qed.

Lemma estado_aceita_sse_witness :
  f_estado estadoSP <> EmptyString /\ f_estado estadoSP <> "Todos" /\
  (In alpha (passoEstado estadoSP [alpha; beta]) <->
   In alpha [alpha; beta] /\ estadoCombina (f_estado estadoSP) alpha).
Proof.
  split; [discriminate|]. split; [discriminate|].
  apply (estado_aceita_sse estadoSP alpha [alpha; beta]); discriminate.
Defined.

Lemma modo_desconhecido_nao_ordena_witness :
  f_ordenar estadoSP <> "nome_az" /\ f_ordenar estadoSP <> "nome_za" /\
  f_ordenar estadoSP <> "rede_az" /\ f_ordenar estadoSP <> "rede_za" /\
  (resultado [beta; alpha] estadoSP
     = List.filter (aceita estadoSP) [beta; alpha] /\
   sublist (resultado [beta; alpha] estadoSP) [beta; alpha]).
Proof.
  repeat (split; [discriminate|]).
  apply (modo_desconhecido_nao_ordena [beta; alpha] estadoSP); discriminate.
Defined.

Lemma resultado_idempotente_witness :
  HostLaws Ascii7.host /\
  resultado (resultado [beta; alpha] soNovoMix) soNovoMix
  = resultado [beta; alpha] soNovoMix.
Proof.
  split; [exact Ascii7Facts.host_laws|].
  exact (@resultado_idempotente Ascii7.host Ascii7Facts.host_laws
           [beta; alpha] soNovoMix).
Defined.

Lemma ordenacao_estavel_total_witness :
  HostLaws Ascii7.host /\
  In ("nome_az", nome, false, cmp_nome_az) modos /\
  f_ordenar nenhumaRede = "nome_az" /\
  (resultado [beta; alpha] nenhumaRede
     = sort cmp_nome_az (filtrar nenhumaRede [beta; alpha]) /\
   Permutation (resultado [beta; alpha] nenhumaRede)
               (filtrar nenhumaRede [beta; alpha]) /\
   StronglySorted (antes cmp_nome_az) (resultado [beta; alpha] nenhumaRede) /\
   (forall k, comChave nome k (resultado [beta; alpha] nenhumaRede)
              = comChave nome k (filtrar nenhumaRede [beta; alpha])) /\
   (forall k, comChaveEquivalente nome k (resultado [beta; alpha] nenhumaRede)
              = comChaveEquivalente nome k (filtrar nenhumaRede [beta; alpha])) /\
   (forall a b, cmp_nome_az a b
                = if false
                  then localeCompare (chave nome b) (chave nome a)
                  else localeCompare (chave nome a) (chave nome b)) /\
   (forall u, nome u = None \/ nome u = Some EmptyString ->
              chave nome u = EmptyString)).
Proof.
  split; [exact Ascii7Facts.host_laws|].
  split; [left; reflexivity|].
  split; [reflexivity|].
  apply (@ordenacao_estavel_total Ascii7.host Ascii7Facts.host_laws
           "nome_az" nome false cmp_nome_az [beta; alpha] nenhumaRede);
    [left; reflexivity | reflexivity].
Defined.

End FiltroExemplos.

(** ** Markers and popups *)

Module MapaFacts.
Import Mapa Exemplos.

Section ComHost.
Context `{Host}.

(** A marker is made exactly when both coordinates are truthy numbers. *)
Lemma criarMarcador_Some (u : Unidade) :
  is_Some (criarMarcador u) <->
  truthyNum (latitude u) = true /\ truthyNum (longitude u) = true.
Proof.
  unfold criarMarcador.
  destruct (truthyNum (latitude u)) eqn:Ea, (truthyNum (longitude u)) eqn:Eo;
    simpl; try (split; [intros [? ?]; discriminate | intros [? ?]; discriminate]).
  destruct (latitude u), (longitude u); try discriminate.
  simpl. split; eauto.
Qed.

(** A unit without latitude or without longitude gets no marker. *)
Lemma criarMarcador_sem_coordenadas (u : Unidade) :
  latitude u = None \/ longitude u = None -> criarMarcador u = None.
Proof.
  unfold criarMarcador. intros [E|E]; rewrite E; simpl;
    [reflexivity | by rewrite orb_true_r].
Qed.

(** At most one marker per unit. *)
Lemma marcadores_length (l : list Unidade) :
  length (marcadores l) <= length l.
Proof.
  unfold marcadores, omap. induction l as [|u l IH]; simpl; [lia|].
  destruct (criarMarcador u); simpl; lia.
Qed.

(** C2, at a unit whose latitude is the number 0: both coordinates are
    present, yet [criarMarcador] returns [null] and [atualizarMapa] draws
    no marker for it. *)
Theorem criarMarcador_latitude_zero :
  latitude unidadeEquador = Some 0%float /\
  longitude unidadeEquador = Some (-51.0625)%float /\
  criarMarcador unidadeEquador = None /\
  marcadores [unidadeEquador] = [].
Proof. repeat split; reflexivity. Qed.

End ComHost.

(** C3 as stated fails for the name: a unit without name gets an empty
    title, not the text used for the other three fields. *)
Lemma nome_ausente_titulo_vazio :
  nome semCampos = None /\
  includes (makePopupHtml semCampos)
           ("<div class=" ++ aspas ++ "popup-title" ++ aspas ++ "></div>")
    = true /\
  makePopupHtml semCampos <> makePopupHtml (comNome (Some "N/A") semCampos).
Proof.
  split; [reflexivity|]. split; [reflexivity|].
  vm_compute. discriminate.
Qed.

(** The four places of the template. *)
Lemma popup_lugares (u : Unidade) :
  contem (makePopupHtml u)
         ("<div class=" ++ aspas ++ "popup-title" ++ aspas ++ ">"
          ++ ou (nome u) vazio ++ "</div>") /\
  contem (makePopupHtml u)
         ("<strong>Rede:</strong> " ++ ou (rede u) "N/A" ++ nl) /\
  contem (makePopupHtml u)
         ("<strong>Endereço:</strong> " ++ ou (endereco_original u) "N/A"
          ++ nl) /\
  contem (makePopupHtml u)
         ("<strong>CNPJ:</strong> " ++ ou (cnpj u) "N/A" ++ nl).
Proof.
  unfold makePopupHtml. split; [|split; [|split]].
  - eexists (nl ++ "    ")%string, _.
    rewrite !StringFacts.anexa_assoc. reflexivity.
  - eexists (nl ++ "    <div class=" ++ aspas ++ "popup-title" ++ aspas
             ++ ">" ++ ou (nome u) vazio ++ "</div>" ++ nl
             ++ "    <div style=" ++ aspas
             ++ "font-size:.9rem;margin-top:6px;" ++ aspas ++ ">" ++ nl
             ++ "      ")%string, _.
    rewrite !StringFacts.anexa_assoc. reflexivity.
  - eexists (nl ++ "    <div class=" ++ aspas ++ "popup-title" ++ aspas
             ++ ">" ++ ou (nome u) vazio ++ "</div>" ++ nl
             ++ "    <div style=" ++ aspas
             ++ "font-size:.9rem;margin-top:6px;" ++ aspas ++ ">" ++ nl
             ++ "      <strong>Rede:</strong> " ++ ou (rede u) "N/A" ++ nl
             ++ "    </div>" ++ nl
             ++ "    <div style=" ++ aspas ++ "font-size:.9rem;" ++ aspas
             ++ ">" ++ nl ++ "      ")%string, _.
    rewrite !StringFacts.anexa_assoc. reflexivity.
  - eexists (nl ++ "    <div class=" ++ aspas ++ "popup-title" ++ aspas
             ++ ">" ++ ou (nome u) vazio ++ "</div>" ++ nl
             ++ "    <div style=" ++ aspas
             ++ "font-size:.9rem;margin-top:6px;" ++ aspas ++ ">" ++ nl
             ++ "      <strong>Rede:</strong> " ++ ou (rede u) "N/A" ++ nl
             ++ "    </div>" ++ nl
             ++ "    <div style=" ++ aspas ++ "font-size:.9rem;" ++ aspas
             ++ ">" ++ nl ++ "      <strong>Endereço:</strong> "
             ++ ou (endereco_original u) "N/A" ++ nl
             ++ "    </div>" ++ nl
             ++ "    <div style=" ++ aspas
             ++ "font-size:.85rem;color:var(--muted);margin-top:6px;"
             ++ aspas ++ ">" ++ nl ++ "      ")%string, _.
    rewrite !StringFacts.anexa_assoc. reflexivity.
Qed.

(** C3 (amended).  [makePopupHtml] is defined on every unit, whatever is
    missing.  A missing or empty network, address or tax identifier is
    shown as N/A after its label, each whatever the other fields are, so
    the popup is that of the same unit with N/A in the field; a missing or
    empty name is shown as the empty text: the title element is empty. *)
Theorem popup_campos_ausentes (u : Unidade) :
  contem (makePopupHtml (comNome None u))
         ("<div class=" ++ aspas ++ "popup-title" ++ aspas ++ "></div>") /\
  contem (makePopupHtml (comNome (Some vazio) u))
         ("<div class=" ++ aspas ++ "popup-title" ++ aspas ++ "></div>") /\
  contem (makePopupHtml (comRede None u))
         ("<strong>Rede:</strong> N/A" ++ nl) /\
  contem (makePopupHtml (comRede (Some vazio) u))
         ("<strong>Rede:</strong> N/A" ++ nl) /\
  contem (makePopupHtml (comEndereco None u))
         ("<strong>Endereço:</strong> N/A" ++ nl) /\
  contem (makePopupHtml (comEndereco (Some vazio) u))
         ("<strong>Endereço:</strong> N/A" ++ nl) /\
  contem (makePopupHtml (comCnpj None u))
         ("<strong>CNPJ:</strong> N/A" ++ nl) /\
  contem (makePopupHtml (comCnpj (Some vazio) u))
         ("<strong>CNPJ:</strong> N/A" ++ nl) /\
  makePopupHtml (comNome None u) = makePopupHtml (comNome (Some vazio) u) /\
  makePopupHtml (comRede None u) = makePopupHtml (comRede (Some "N/A") u) /\
  makePopupHtml (comRede (Some vazio) u)
    = makePopupHtml (comRede (Some "N/A") u) /\
  makePopupHtml (comEndereco None u)
    = makePopupHtml (comEndereco (Some "N/A") u) /\
  makePopupHtml (comEndereco (Some vazio) u)
    = makePopupHtml (comEndereco (Some "N/A") u) /\
  makePopupHtml (comCnpj None u) = makePopupHtml (comCnpj (Some "N/A") u) /\
  makePopupHtml (comCnpj (Some vazio) u)
    = makePopupHtml (comCnpj (Some "N/A") u).
Proof.
  split; [exact (proj1 (popup_lugares (comNome None u)))|].
  split; [exact (proj1 (popup_lugares (comNome (Some vazio) u)))|].
  split; [exact (proj1 (proj2 (popup_lugares (comRede None u))))|].
  split; [exact (proj1 (proj2 (popup_lugares (comRede (Some vazio) u))))|].
  split; [exact (proj1 (proj2 (proj2 (popup_lugares (comEndereco None u)))))|].
  split; [exact (proj1 (proj2 (proj2
                   (popup_lugares (comEndereco (Some vazio) u)))))|].
  split; [exact (proj2 (proj2 (proj2 (popup_lugares (comCnpj None u)))))|].
  split; [exact (proj2 (proj2 (proj2
                   (popup_lugares (comCnpj (Some vazio) u)))))|].
  repeat split; reflexivity.
Qed.

End MapaFacts.

(** ** Statements on the page *)

Module PaginaFacts.
Import Mapa Pagina Filtro FiltroFacts.

(** *** Rules for [wp] *)

Lemma wp_mret {A} (a : A) (Q : A -> Page -> Prop) (p : Page) :
  Q a p -> wp (mret a) Q p.
Proof. intros HQ. by exists p, a. Qed.

Lemma wp_bind {A B} (m : M A) (k : A -> M B) (Q : B -> Page -> Prop)
    (p : Page) :
  wp m (fun a => wp (k a) Q) p -> wp (m ≫= k) Q p.
Proof.
  intros (p1 & a & E & p2 & b & E2 & HQ). exists p2, b.
  split; [|exact HQ]. unfold mbind, M_bind. by rewrite E.
Qed.

Lemma wp_ler {A} (g : Page -> A) (Q : A -> Page -> Prop) (p : Page) :
  Q (g p) p -> wp (ler g) Q p.
Proof. intros HQ. by exists p, (g p). Qed.

Lemma wp_escrever (g : Page -> Page) (Q : () -> Page -> Prop) (p : Page) :
  Q () (g p) -> wp (escrever g) Q p.
Proof. intros HQ. by exists (g p), (). Qed.

Lemma wp_alocar (l : list Unidade) (Q : loc -> Page -> Prop) (p : Page) :
  Q (fresh (dom (heap p)))
    (com_heap (<[fresh (dom (heap p)) := l]> (heap p)) p) ->
  wp (alocar l) Q p.
Proof. intros HQ. by eexists _, _. Qed.

(** *** The array operations keep the arrays that were there *)

Lemma deref_emCurso p0 c r p : emCurso p0 c r p -> deref p r = c.
Proof. intros (_ & _ & _ & _ & E). unfold deref. by rewrite E. Qed.

(** A new array is not one of the old ones. *)
Lemma emCurso_alocar (p0 p : Page) (l : list Unidade) :
  resto p = resto p0 -> preserva p0 p -> dom (heap p0) ⊆ dom (heap p) ->
  emCurso p0 l (fresh (dom (heap p)))
          (com_heap (<[fresh (dom (heap p)) := l]> (heap p)) p).
Proof.
  intros Hr Hp Hd.
  pose proof (is_fresh (dom (heap p))) as Hf.
  split; [|split; [|split; [|split]]].
  - exact Hr.
  - intros a Ha. simpl. rewrite lookup_insert_ne; [by apply Hp|].
    intros E. apply Hf. rewrite E. by apply Hd.
  - simpl. rewrite dom_insert_L. set_solver.
  - intros Ha. apply Hf, Hd, Ha.
  - simpl. apply lookup_insert_eq.
Qed.

Lemma wp_filterArr p0 c r p (pred : Unidade -> bool)
    (Q : loc -> Page -> Prop) :
  emCurso p0 c r p ->
  (forall r' p', emCurso p0 (List.filter pred c) r' p' -> Q r' p') ->
  wp (filterArr pred r) Q p.
Proof.
  intros Hi HQ. unfold filterArr.
  apply wp_bind, wp_ler, wp_alocar, HQ.
  rewrite (deref_emCurso _ _ _ _ Hi).
  destruct Hi as (Hr & Hp & Hd & _ & _). by apply emCurso_alocar.
Qed.

(** Sorting writes to the array [resultado] refers to, which is a new one. *)
Lemma wp_sortArr p0 c r p (cmp : Unidade -> Unidade -> Z)
    (Q : () -> Page -> Prop) :
  emCurso p0 c r p ->
  (forall p', emCurso p0 (sort cmp c) r p' -> Q () p') ->
  wp (sortArr cmp r) Q p.
Proof.
  intros Hi HQ. unfold sortArr. apply wp_escrever, HQ.
  rewrite (deref_emCurso _ _ _ _ Hi).
  destruct Hi as (Hr & Hp & Hd & Hn & Hc).
  split; [|split; [|split; [|split]]].
  - exact Hr.
  - intros a Ha. simpl. rewrite lookup_insert_ne; [by apply Hp|].
    intros ->. by apply Hn.
  - simpl. rewrite dom_insert_L. set_solver.
  - exact Hn.
  - simpl. apply lookup_insert_eq.
Qed.

Section ComHost.
Context `{Host}.

Lemma wp_ordenarArr p0 c r p (modo : string) (Q : () -> Page -> Prop) :
  emCurso p0 c r p ->
  (forall p', emCurso p0 (ordenar modo c) r p' -> Q () p') ->
  wp (ordenarArr modo r) Q p.
Proof.
  intros Hi HQ. unfold ordenarArr, ordenar in *.
  repeat match goal with |- context [String.eqb ?a ?b] =>
    destruct (String.eqb a b) end;
  first [ by apply (wp_sortArr p0 c) | by apply wp_mret, HQ ].
Qed.

(** What one run of [applyFilters] does to the page. *)
Lemma applyFilters_spec (p : Page) (us : list Unidade) :
  heap p !! unidades p = Some us ->
  exists p',
    applyFilters p = (p', inr ()) /\
    status p' = "Dados atualizados." /\
    unidades p' = unidades p /\
    preserva p p' /\
    (unidadesAtuais p' ∉ dom (heap p)) /\
    deref p' (unidadesAtuais p') = resultado us (lerFiltrosForm (form p)) /\
    markersLayer p' = marcadores (resultado us (lerFiltrosForm (form p))) /\
    visiveis p' = marcadores (resultado us (lerFiltrosForm (form p))) /\
    clustersAtivos p' = clustersAtivos p /\
    form p' = form p /\ legend p' = legend p /\
    requests p' = requests p /\ console p' = console p.
Proof.
  intros Hu.
  set (f := lerFiltrosForm (form p)).
  set (p1 := com_status "Filtrando..." p).
  assert (H0 : emCurso p us (fresh (dom (heap p1)))
                 (com_heap (<[fresh (dom (heap p1)) := us]> (heap p1)) p1)).
  { apply emCurso_alocar; [reflexivity | by intros l Hl | reflexivity]. }
  cut (wp applyFilters (fun _ p' =>
         status p' = "Dados atualizados." /\
         exists p4, emCurso p (resultado us f) (unidadesAtuais p') p4 /\
           heap p' = heap p4 /\ unidades p' = unidades p4 /\
           markersLayer p' = marcadores (resultado us f) /\
           visiveis p' = marcadores (resultado us f) /\
           clustersAtivos p' = clustersAtivos p4 /\
           form p' = form p4 /\ legend p' = legend p4 /\
           requests p' = requests p4 /\ console p' = console p4) p).
  { intros (p' & [] & E & Hs & p4 & (Hr & Hp & Hd & Hn & Hc) & Eh & Eu & Em
            & Ev & Ec & Ef & El & Eq & Eo).
    injection Hr as R1 R2 R3 R4 R5 R6 R7 R8 R9 R10 R11.
    exists p'. repeat split; try congruence.
    - intros l Hl. rewrite Eh. by apply Hp.
    - unfold deref. by rewrite Eh, Hc. }
  unfold applyFilters.
  apply wp_bind, wp_escrever. fold p1.
  apply wp_bind, wp_ler. change (form p1) with (form p). fold f.
  apply wp_bind, wp_ler.
  apply wp_bind. unfold copiar. apply wp_bind, wp_ler, wp_alocar.
  assert (Ed : deref p1 (unidades p1) = us) by (unfold deref; simpl; by rewrite Hu).
  rewrite Ed. clear Ed.
  set (r0 := fresh (dom (heap p1))) in *.
  set (q0 := com_heap (<[r0 := us]> (heap p1)) p1) in *.
  clearbody q0 r0.
  (* the network step *)
  apply wp_bind.
  assert (K1 : forall Q, (forall r q, emCurso p (passoRede f us) r q -> Q r q) ->
    wp (match f_redes f with
        | [] => mret r0
        | _ :: _ => filterArr (predRede f) r0
        end) Q q0).
  { intros Q HQ. unfold passoRede in HQ. destruct (f_redes f).
    - by apply wp_mret, HQ.
    - by apply (wp_filterArr p us). }
  apply K1. clear K1 H0 q0 r0. intros r1 q1 H1.
  (* the state step *)
  apply wp_bind.
  assert (K2 : forall Q,
    (forall r q, emCurso p (passoEstado f (passoRede f us)) r q -> Q r q) ->
    wp (if estadoSelecionado f
        then filterArr (predEstado f) r1 else mret r1) Q q1).
  { intros Q HQ. unfold passoEstado in HQ. destruct (estadoSelecionado f).
    - by apply (wp_filterArr p (passoRede f us)).
    - by apply wp_mret, HQ. }
  apply K2. clear K2 H1 q1 r1. intros r2 q2 H2.
  (* the tax-identifier step *)
  apply wp_bind.
  assert (K3 : forall Q,
    (forall r q, emCurso p (passoCnpj f (passoEstado f (passoRede f us))) r q
                 -> Q r q) ->
    wp (if naoVazio (f_cnpj f)
        then filterArr (predCnpj f) r2 else mret r2) Q q2).
  { intros Q HQ. unfold passoCnpj in HQ. destruct (naoVazio (f_cnpj f)).
    - by apply (wp_filterArr p (passoEstado f (passoRede f us))).
    - by apply wp_mret, HQ. }
  apply K3. clear K3 H2 q2 r2. intros r3 q3 H3.
  (* the name step *)
  apply wp_bind.
  assert (K4 : forall Q,
    (forall r q, emCurso p (filtrar f us) r q -> Q r q) ->
    wp (if naoVazio (f_nome f)
        then filterArr (predNome f) r3 else mret r3) Q q3).
  { intros Q HQ. unfold filtrar, passoNome in HQ.
    destruct (naoVazio (f_nome f)).
    - by apply (wp_filterArr p (passoCnpj f (passoEstado f (passoRede f us)))).
    - by apply wp_mret, HQ. }
  apply K4. clear K4 H3 q3 r3. intros r4 q4 H4.
  (* the sort, then the redraw *)
  apply wp_bind, (wp_ordenarArr p (filtrar f us)); [exact H4|].
  fold (resultado us f). clear H4 q4. intros q5 H5.
  apply wp_bind. unfold atualizarMapa. apply wp_escrever.
  unfold setStatus. apply wp_escrever.
  rewrite (deref_emCurso _ _ _ _ H5).
  destruct (clustersAtivos q5) eqn:Ecl;
    (split; [reflexivity|]; exists q5; split; [exact H5|]);
    unfold visiveis; simpl; rewrite ?app_nil_r; by rewrite ?Ecl.
Qed.

End ComHost.

End PaginaFacts.

(** ** What the page functions guarantee *)

Module PaginaTeoremas.
Import Mapa Pagina Filtro PaginaFacts Exemplos.

(** When a request fails the loader writes the error status, logs the
    exception, and leaves the arrays and both layers as they were; the first
    request is issued once, the second at most once. *)
Lemma carregarDados_falha_preserva `{Host} (srv : Servidor) (p : Page) :
  falhou (respRedes srv) \/ falhou (respAll srv) ->
  snd (carregarDados srv p) = inr () /\
  status (fst (carregarDados srv p)) = "Erro ao carregar dados." /\
  heap (fst (carregarDados srv p)) = heap p /\
  unidades (fst (carregarDados srv p)) = unidades p /\
  unidadesAtuais (fst (carregarDados srv p)) = unidadesAtuais p /\
  markersLayer (fst (carregarDados srv p)) = markersLayer p /\
  clusterGroup (fst (carregarDados srv p)) = clusterGroup p /\
  visiveis (fst (carregarDados srv p)) = visiveis p /\
  length (console (fst (carregarDados srv p))) = S (length (console p)) /\
  (requests (fst (carregarDados srv p)) = requests p ++ [ENDPOINT_REDES] \/
   requests (fst (carregarDados srv p))
     = requests p ++ [ENDPOINT_REDES; ENDPOINT_ALL]).
Proof.
  destruct srv as [r1 r2]. unfold falhou. simpl.
  assert (L : forall (e : Excecao) (l : list Excecao),
             length (l ++ [e]) = S (length l))
    by (intros; rewrite length_app; simpl; lia).
  intros [[->| ->]|Hf].
  - repeat split; try reflexivity; [apply L | by left].
  - repeat split; try reflexivity; [apply L | by left].
  - destruct r1 as [| |redes].
    + repeat split; try reflexivity; [apply L | by left].
    + repeat split; try reflexivity; [apply L | by left].
    + destruct Hf as [-> | ->];
        (repeat split; try reflexivity;
         [apply L | right; simpl; by rewrite <- app_assoc]).
Qed.

Section ComHost.
Context `{Host}.

(** C9.  A run of [applyFilters] leaves the variable [unidades] and the
    array it refers to as they were, like every array that existed before;
    the array it hands to the map is a new one. *)
Theorem applyFilters_nao_altera_unidades (p : Page) (us : list Unidade) :
  heap p !! unidades p = Some us ->
  unidades (fst (applyFilters p)) = unidades p /\
  heap (fst (applyFilters p)) !! unidades p = Some us /\
  preserva p (fst (applyFilters p)) /\
  unidadesAtuais (fst (applyFilters p)) <> unidades p /\
  deref (fst (applyFilters p)) (unidadesAtuais (fst (applyFilters p)))
    = resultado us (lerFiltrosForm (form p)).
Proof.
  intros Hu.
  destruct (applyFilters_spec p us Hu)
    as (p' & -> & _ & Eu & Hp & Hn & Ed & _).
  simpl. split; [exact Eu|]. split; [|split; [exact Hp|split; [|exact Ed]]].
  - rewrite Hp; [exact Hu|]. apply elem_of_dom. eauto.
  - intros E. apply Hn. rewrite E. apply elem_of_dom. eauto.
Qed.

(** C8.  When one of the two start-up requests gets no answer or an answer
    that is not JSON, [carregarDados] ends with the error text in the
    status, the unit list still empty, no marker on any layer, and each
    request issued at most once. *)
Theorem carregarDados_falha (srv : Servidor) (st : string) (fm : Form) :
  falhou (respRedes srv) \/ falhou (respAll srv) ->
  snd (carregarDados srv (paginaInicial st fm)) = inr () /\
  status (fst (carregarDados srv (paginaInicial st fm)))
    = "Erro ao carregar dados." /\
  deref (fst (carregarDados srv (paginaInicial st fm)))
        (unidades (fst (carregarDados srv (paginaInicial st fm)))) = [] /\
  deref (fst (carregarDados srv (paginaInicial st fm)))
        (unidadesAtuais (fst (carregarDados srv (paginaInicial st fm)))) = [] /\
  markersLayer (fst (carregarDados srv (paginaInicial st fm))) = [] /\
  clusterGroup (fst (carregarDados srv (paginaInicial st fm))) = [] /\
  visiveis (fst (carregarDados srv (paginaInicial st fm))) = [] /\
  (requests (fst (carregarDados srv (paginaInicial st fm)))
     = [ENDPOINT_REDES] \/
   requests (fst (carregarDados srv (paginaInicial st fm)))
     = [ENDPOINT_REDES; ENDPOINT_ALL]).
Proof.
  intros Hf.
  destruct (carregarDados_falha_preserva srv (paginaInicial st fm) Hf)
    as (Er & Es & Eh & Eu & Ea & Em & Ec & Ev & _ & Eq).
  unfold deref. rewrite Eh, Eu, Ea, Em, Ec, Ev.
  repeat split; try assumption; try reflexivity.
Qed.

End ComHost.

End PaginaTeoremas.

(** ** The page functions on the sample data *)

Module PaginaExemplos.
Import Mapa Pagina Filtro Exemplos PaginaTeoremas.

#[local] Existing Instance Ascii7.host.

(** A successful load: the three units are stored; the unit without
    network does not pass the network step, the other two are drawn,
    sorted by name. *)
Example carga_bem_sucedida :
  status paginaCarregada = "Dados carregados." /\
  deref paginaCarregada (unidades paginaCarregada) = [beta; alpha; semCampos] /\
  deref paginaCarregada (unidadesAtuais paginaCarregada) = [alpha; beta] /\
  visiveis paginaCarregada = marcadores [alpha; beta] /\
  requests paginaCarregada = [ENDPOINT_REDES; ENDPOINT_ALL].
Proof. repeat split; vm_compute; reflexivity. Qed.

Lemma applyFilters_nao_altera_unidades_witness :
  heap paginaCarregada !! unidades paginaCarregada
    = Some [beta; alpha; semCampos] /\
  (unidades (fst (applyFilters paginaCarregada)) = unidades paginaCarregada /\
   heap (fst (applyFilters paginaCarregada)) !! unidades paginaCarregada
     = Some [beta; alpha; semCampos] /\
   preserva paginaCarregada (fst (applyFilters paginaCarregada)) /\
   unidadesAtuais (fst (applyFilters paginaCarregada))
     <> unidades paginaCarregada /\
   deref (fst (applyFilters paginaCarregada))
         (unidadesAtuais (fst (applyFilters paginaCarregada)))
     = resultado [beta; alpha; semCampos]
                 (lerFiltrosForm (form paginaCarregada))).
Proof.
  split; [vm_compute; reflexivity|].
  apply (applyFilters_nao_altera_unidades paginaCarregada
           [beta; alpha; semCampos]).
  vm_compute. reflexivity.
Defined.

Lemma carregarDados_falha_witness :
  (falhou (respRedes servidorRuim) \/ falhou (respAll servidorRuim)) /\
  (snd (carregarDados servidorRuim (paginaInicial "..." formPadrao)) = inr () /\
   status (fst (carregarDados servidorRuim (paginaInicial "..." formPadrao)))
     = "Erro ao carregar dados." /\
   deref (fst (carregarDados servidorRuim (paginaInicial "..." formPadrao)))
         (unidades (fst (carregarDados servidorRuim
                           (paginaInicial "..." formPadrao)))) = [] /\
   deref (fst (carregarDados servidorRuim (paginaInicial "..." formPadrao)))
         (unidadesAtuais (fst (carregarDados servidorRuim
                                 (paginaInicial "..." formPadrao)))) = [] /\
   markersLayer (fst (carregarDados servidorRuim
                        (paginaInicial "..." formPadrao))) = [] /\
   clusterGroup (fst (carregarDados servidorRuim
                        (paginaInicial "..." formPadrao))) = [] /\
   visiveis (fst (carregarDados servidorRuim
                    (paginaInicial "..." formPadrao))) = [] /\
   (requests (fst (carregarDados servidorRuim
                     (paginaInicial "..." formPadrao)))
      = [ENDPOINT_REDES] \/
    requests (fst (carregarDados servidorRuim
                     (paginaInicial "..." formPadrao)))
      = [ENDPOINT_REDES; ENDPOINT_ALL])).
Proof.
  assert (Hf : falhou (respRedes servidorRuim) \/ falhou (respAll servidorRuim))
    by (right; right; reflexivity).
  split; [exact Hf|].
  exact (carregarDados_falha servidorRuim "..." formPadrao Hf).
Defined.

End PaginaExemplos.

(** ** More on the filter engine *)

Module FiltroMais.
Import Filtro StringFacts SortFacts FiltroFacts FiltroTeoremas EspecPainel.

(** *** Sorting and filtering commute *)

Section SortFilter.
Context {A : Type} (cmp : A -> A -> Z) (Hc : Consistente cmp).

Lemma insere_primeiro (x : A) (l : list A) :
  Forall (antes cmp x) l -> insere cmp x l = x :: l.
Proof.
  intros Hf. destruct Hf as [|y l Hxy _]; simpl; [reflexivity|].
  unfold antes in Hxy. apply Z.leb_le in Hxy. by rewrite Hxy.
Qed.

Lemma insere_filter_ordenada (sel : A -> bool) (x : A) (l : list A) :
  StronglySorted (antes cmp) l ->
  List.filter sel (insere cmp x l)
  = if sel x then insere cmp x (List.filter sel l) else List.filter sel l.
Proof.
  induction 1 as [|y l Hs IH Hy]; simpl.
  - by destruct (sel x).
  - destruct (cmp x y <=? 0)%Z eqn:E.
    + apply Z.leb_le in E.
      assert (Hall : forall z, In z (List.filter sel (y :: l)) -> antes cmp x z).
      { intros z Hz. apply filter_In in Hz as [[<-|Hz] _]; [exact E|].
        apply (cons_trans cmp Hc x y z); [exact E|].
        rewrite List.Forall_forall in Hy. by apply Hy. }
      change (List.filter sel (x :: y :: l)
              = if sel x then insere cmp x (List.filter sel (y :: l))
                else List.filter sel (y :: l)).
      rewrite insere_primeiro by (by apply List.Forall_forall).
      reflexivity.
    + simpl. rewrite IH. destruct (sel y), (sel x); simpl;
        rewrite ?E; reflexivity.
Qed.

Lemma sort_filter_comuta (sel : A -> bool) (l : list A) :
  List.filter sel (sort cmp l) = sort cmp (List.filter sel l).
Proof.
  induction l as [|x l IH]; simpl; [reflexivity|].
  fold (sort cmp l).
  rewrite insere_filter_ordenada by (by apply sort_StronglySorted).
  rewrite IH. by destruct (sel x).
Qed.

End SortFilter.

Lemma aceita_mesmosFiltros `{Host} (f g : Filtros) (u : Unidade) :
  mesmosFiltros f g -> aceita f u = aceita g u.
Proof.
  destruct f, g. unfold mesmosFiltros. simpl.
  intros (-> & -> & -> & ->). reflexivity.
Qed.

Section ComHost.
Context `{Host}.

(** X1.  The four steps are a conjunction: a unit is in the result exactly
    when it is in the unit list and survives each step that is active. *)
Theorem resultado_conjuncao (us : list Unidade) (f : Filtros) (u : Unidade) :
  In u (resultado us f) <->
  In u us /\ redeAceita f u = true /\ estadoAceita f u = true /\
  cnpjAceita f u = true /\ nomeAceita f u = true.
Proof.
  rewrite resultado_In. unfold aceita. rewrite !andb_true_iff. tauto.
Qed.

(** X2.  The result is a rearrangement of a subsequence of the unit list:
    no unit is invented or shown more often than it is listed. *)
Theorem resultado_subsequencia (us : list Unidade) (f : Filtros) :
  Permutation (resultado us f) (List.filter (aceita f) us) /\
  sublist (List.filter (aceita f) us) us /\
  length (resultado us f) <= length us.
Proof.
  assert (P : Permutation (resultado us f) (List.filter (aceita f) us)).
  { unfold resultado. rewrite filtrar_filter. apply ordenar_perm. }
  split; [exact P|]. split; [apply filter_sublist|].
  rewrite (Permutation_length P). apply sublist_length, filter_sublist.
Qed.

(** X3.  The sort mode decides the order only: two criteria that differ in
    the sort mode show the same units, each as often. *)
Theorem modo_nao_muda_unidades (us : list Unidade) (f g : Filtros) :
  mesmosFiltros f g -> Permutation (resultado us f) (resultado us g).
Proof.
  intros Hfg. unfold resultado. rewrite !filtrar_filter, !ordenar_perm.
  rewrite (List.filter_ext (aceita f) (aceita g)); [reflexivity|].
  intros u. by apply aceita_mesmosFiltros.
Qed.

(** X4.  With no box checked, the state selector on Todos (or empty) and
    both texts empty, every unit is shown: the result is the unit list in
    the order of the sort mode. *)
Theorem sem_filtro_mostra_tudo (us : list Unidade) (f : Filtros) :
  semFiltro f ->
  resultado us f = ordenar (f_ordenar f) us /\
  Permutation (resultado us f) us.
Proof.
  intros (Hr & He & Hc & Hn).
  assert (E : filtrar f us = us).
  { unfold filtrar, passoNome, passoCnpj, passoEstado, passoRede,
      estadoSelecionado.
    rewrite Hr, Hc, Hn. simpl.
    destruct He as [-> | ->]; reflexivity. }
  unfold resultado. rewrite E. split; [reflexivity | apply ordenar_perm].
Qed.

(** X5.  An active step drops the units that lack the field it reads: a
    shown unit has a network among the checked ones when a box is checked,
    a tax identifier when the tax-identifier query is not empty, a name
    when the name query is not empty, and a state or an address when a
    state is selected. *)
Theorem filtro_ativo_exige_campo (us : list Unidade) (f : Filtros)
    (u : Unidade) :
  In u (resultado us f) ->
  (f_redes f = [] \/ exists r, rede u = Some r /\ In r (f_redes f)) /\
  (f_cnpj f = EmptyString \/ campo (cnpj u) (fun _ => True)) /\
  (f_nome f = EmptyString \/ campo (nome u) (fun _ => True)) /\
  (f_estado f = EmptyString \/ f_estado f = "Todos" \/
   campo (estado u) (fun _ => True) \/
   campo (endereco_original u) (fun _ => True)).
Proof.
  intros Hu. apply resultado_conjuncao in Hu as (_ & Hr & He & Hc & Hn).
  split; [|split; [|split]].
  - unfold redeAceita, predRede in Hr.
    destruct (f_redes f) as [|r0 rs]; [by left|right].
    destruct (rede u) as [r|]; [|discriminate].
    apply existsb_exists in Hr as (x & Hx & Ex).
    apply String.eqb_eq in Ex as <-. eauto.
  - unfold cnpjAceita, predCnpj in Hc.
    destruct (f_cnpj f); [by left|right]. simpl in Hc.
    apply andb_true_iff in Hc as [Hc _]. by apply truthy_campo.
  - unfold nomeAceita, predNome in Hn.
    destruct (f_nome f); [by left|right]. simpl in Hn.
    apply andb_true_iff in Hn as [Hn _]. by apply truthy_campo.
  - unfold estadoAceita in He.
    destruct (estadoSelecionado f) eqn:Es.
    + right; right. unfold predEstado in He.
      apply orb_true_iff in He as [He|He];
        apply andb_true_iff in He as [He _]; apply truthy_campo in He; auto.
    + unfold estadoSelecionado in Es. apply andb_false_iff in Es as [Es|Es].
      * left. by destruct (f_estado f).
      * right; left. apply negb_false_iff, String.eqb_eq in Es. exact Es.
Qed.

Context {HL : HostLaws _}.

(** X6.  Filtering and sorting commute: the result is the filter of the
    sorted unit list.  So tightening a filter never reorders the units that
    remain: under one sort mode every result is a subsequence of the same
    sorted list. *)
Theorem resultado_filtra_ordenada (us : list Unidade) (f : Filtros) :
  resultado us f = List.filter (aceita f) (ordenar (f_ordenar f) us) /\
  sublist (resultado us f) (ordenar (f_ordenar f) us).
Proof.
  assert (E : resultado us f
              = List.filter (aceita f) (ordenar (f_ordenar f) us)).
  { unfold resultado, ordenar. rewrite filtrar_filter.
    repeat match goal with |- context [String.eqb ?a ?b] =>
      destruct (String.eqb a b) end;
    try reflexivity; symmetry; apply sort_filter_comuta;
    first [apply chave_az_consistente | apply chave_za_consistente]. }
  split; [exact E|]. rewrite E. apply filter_sublist.
Qed.

Lemma rev_ordenada {A} (cmp cmp' : A -> A -> Z) (l : list A) :
  (forall a b, cmp' a b = cmp b a) ->
  StronglySorted (antes cmp) l -> StronglySorted (antes cmp') (rev l).
Proof.
  intros Ec. induction 1 as [|x l Hs IH Hx]; simpl; [constructor|].
  apply stdpp.sorting.StronglySorted_app_2; [|exact IH|repeat constructor].
  intros x1 x2 H1 H2. apply list_elem_of_In in H1, H2.
  destruct H2 as [<-|[]]. apply in_rev in H1.
  rewrite List.Forall_forall in Hx. unfold antes. rewrite Ec. by apply Hx.
Qed.

(** X7.  When no two units of the filtered list have names (networks) that
    the host compares as equal, the descending mode shows exactly the
    reverse of the ascending mode. *)
Theorem descendente_e_reverso m m' cp cmp cmp' (us : list Unidade)
    (f g : Filtros) :
  In (m, cp, false, cmp) modos -> In (m', cp, true, cmp') modos ->
  mesmosFiltros f g -> f_ordenar f = m -> f_ordenar g = m' ->
  (forall a b, In a (filtrar f us) -> In b (filtrar f us) ->
               localeCompare (chave cp a) (chave cp b) = 0%Z -> a = b) ->
  resultado us g = rev (resultado us f).
Proof.
  intros Hm Hm' Hfg Ef Eg Hk.
  assert (El : filtrar g us = filtrar f us).
  { rewrite !filtrar_filter. apply List.filter_ext.
    intros u. symmetry. by apply aceita_mesmosFiltros. }
  unfold resultado. rewrite El, Ef, Eg.
  rewrite (modos_ordenar _ _ _ _ _ Hm), (modos_ordenar _ _ _ _ _ Hm').
  set (l := filtrar f us) in *.
  assert (Ec : forall a b, cmp' a b = cmp b a).
  { intros a b.
    by rewrite (modos_cmp _ _ _ _ a b Hm'), (modos_cmp _ _ _ _ b a Hm). }
  apply (stdpp.sorting.StronglySorted_unique_strong (antes cmp')).
  - intros x1 x2 H1 H2 H12 H21. unfold antes in H12, H21.
    apply list_elem_of_In in H1, H2.
    apply sort_In in H1. apply in_rev, sort_In in H2.
    apply Hk; [assumption..|].
    rewrite Ec in H12, H21.
    rewrite (modos_cmp _ _ _ _ _ _ Hm) in H12.
    rewrite (modos_cmp _ _ _ _ _ _ Hm) in H21.
    pose proof (localeCompare_antisym (chave cp x1) (chave cp x2)). lia.
  - apply sort_StronglySorted. by apply (modos_consistente m' cp true).
  - apply (rev_ordenada cmp cmp'); [exact Ec|].
    apply sort_StronglySorted. by apply (modos_consistente m cp false).
  - rewrite sort_perm. rewrite <- Permutation_rev. symmetry. apply sort_perm.
Qed.

(** X8.  The state step is insensitive to letter case: a unit whose state
    and address differ only in letter case gets the same verdict, and so
    does a selection written in another case. *)
Theorem estado_sem_caixa (f g : Filtros) (u v : Unidade) :
  mesmoTexto (estado u) (estado v) ->
  mesmoTexto (endereco_original u) (endereco_original v) ->
  toLowerCase (f_estado f) = toLowerCase (f_estado g) ->
  predEstado f u = predEstado g v.
Proof.
  intros He Ha Hs. unfold predEstado.
  assert (N : forall a b : option string, mesmoTexto a b ->
            truthy a = truthy b /\ normalizeString a = normalizeString b).
  { intros [a|] [b|] Hab; simpl in Hab; try done. split.
    - simpl. by apply naoVazio_minusculas.
    - rewrite !normalizeString_Some. unfold semCaixa.
      by rewrite !toLowerCase_trim, Hab. }
  destruct (N _ _ He) as [-> ->]. destruct (N _ _ Ha) as [-> ->].
  rewrite !normalizeString_Some. unfold semCaixa.
  by rewrite !toLowerCase_trim, Hs.
Qed.

End ComHost.

End FiltroMais.

(** ** More on markers and popups *)

Module MapaMais.
Import Mapa StringFacts EspecPainel.

Section ComHost.
Context `{Host}.

Lemma criarMarcador_geocodificada (u : Unidade) :
  is_Some (criarMarcador u) <-> geocodificada u = true.
Proof.
  unfold criarMarcador, geocodificada.
  destruct (truthyNum (latitude u)) eqn:Ea, (truthyNum (longitude u)) eqn:Eo;
    simpl; try (split; [intros [? ?]; discriminate | discriminate]).
  destruct (latitude u), (longitude u); try discriminate.
  simpl. split; eauto.
Qed.

(** X9.  [criarMarcador] makes a marker exactly for the units whose two
    coordinates are numbers other than 0 and NaN. *)
Theorem marcador_sse_coordenadas (u : Unidade) :
  is_Some (criarMarcador u) <->
  exists la lo,
    latitude u = Some la /\ longitude u = Some lo /\
    PrimFloat.is_zero la = false /\ PrimFloat.is_nan la = false /\
    PrimFloat.is_zero lo = false /\ PrimFloat.is_nan lo = false.
Proof.
  rewrite criarMarcador_geocodificada. unfold geocodificada, truthyNum.
  split.
  - intros Hg. apply andb_true_iff in Hg as [Ha Ho].
    destruct (latitude u) as [la|], (longitude u) as [lo|]; try discriminate.
    apply negb_true_iff, orb_false_elim in Ha as [Za Na].
    apply negb_true_iff, orb_false_elim in Ho as [Zo No].
    exists la, lo. repeat split; assumption || reflexivity.
  - intros (la & lo & -> & -> & -> & -> & -> & ->). reflexivity.
Qed.

Lemma criarMarcador_conteudo (u : Unidade) (m : Marker) :
  criarMarcador u = Some m ->
  latitude u = Some (fst (latlng m)) /\
  longitude u = Some (snd (latlng m)) /\
  popup m = makePopupHtml u /\
  contem (html (icon m)) ("background:" ++ corDaRede (rede u)).
Proof.
  unfold criarMarcador.
  destruct (negb _ || negb _); [discriminate|].
  destruct (latitude u) as [la|], (longitude u) as [lo|]; simpl;
    try discriminate.
  intros [= <-]. simpl. repeat split.
  exists ("<div style=" ++ aspas
          ++ "width:100%;height:100%;border-radius:50%;")%string,
         (aspas ++ "></div>")%string.
  rewrite !anexa_assoc. reflexivity.
Qed.

(** The colour of a network: its own entry of [REDE_COLORS]; else the
    member that the object inherits under that name, as text, when there
    is one; else the default green. *)
Lemma corDaRede_casos (r : option string) :
  corDaRede r =
    match REDE_COLORS !! default "undefined" r with
    | Some c => c
    | None => default "#2ca02c" (herdado (default "undefined" r))
    end.
Proof.
  unfold corDaRede, lerPropriedade.
  destruct (REDE_COLORS !! default "undefined" r) as [c|] eqn:E.
  - unfold REDE_COLORS in E.
    repeat (apply lookup_insert_Some in E as [[_ <-]|[_ E]];
            [reflexivity|]).
    by rewrite lookup_empty in E.
  - by destruct (herdado (default "undefined" r)).
Qed.

(** X10.  Every marker [atualizarMapa] puts on the layer stands for a unit
    of the list it was given: it sits at the coordinates of that unit,
    carries its popup and is painted in the colour that [REDE_COLORS]
    gives for its network, an inherited member of the object included. *)
Theorem marcador_vem_de_unidade (l : list Unidade) (m : Marker) :
  In m (marcadores l) ->
  exists u, In u l /\
    latitude u = Some (fst (latlng m)) /\
    longitude u = Some (snd (latlng m)) /\
    popup m = makePopupHtml u /\
    contem (html (icon m)) ("background:" ++ corDaRede (rede u)).
Proof.
  unfold marcadores, omap. induction l as [|u l IH]; simpl; [tauto|].
  destruct (criarMarcador u) as [m'|] eqn:E.
  - intros [<-|Hm].
    + exists u. split; [by left|]. by apply criarMarcador_conteudo.
    + destruct (IH Hm) as (v & Hv & Hrest). exists v. split; [by right|].
      exact Hrest.
  - intros Hm. destruct (IH Hm) as (v & Hv & Hrest). exists v.
    split; [by right|]. exact Hrest.
Qed.

(** X11.  The layer holds one marker per geocoded unit and none for the
    others, in the order of the list: the popups of the markers are the
    popups of the geocoded units. *)
Theorem marcadores_das_geocodificadas (l : list Unidade) :
  map popup (marcadores l)
    = map makePopupHtml (List.filter geocodificada l) /\
  length (marcadores l) = length (List.filter geocodificada l).
Proof.
  assert (E : map popup (marcadores l)
              = map makePopupHtml (List.filter geocodificada l)).
  { unfold marcadores, omap. induction l as [|u l IH]; simpl; [reflexivity|].
    destruct (criarMarcador u) as [m|] eqn:Em.
    - assert (Hg : geocodificada u = true)
        by (apply criarMarcador_geocodificada; eauto).
      rewrite Hg. simpl. rewrite IH.
      by destruct (criarMarcador_conteudo u m Em) as (_ & _ & -> & _).
    - destruct (geocodificada u) eqn:Hg; [|exact IH].
      apply criarMarcador_geocodificada in Hg as [m Hm]. congruence. }
  split; [exact E|].
  rewrite <- (length_map popup), E. apply length_map.
Qed.

End ComHost.

(** X12.  The popup shows the four texts as they are, without escaping:
    whatever the name, network, address and tax identifier of a unit
    contain, markup included, is part of the HTML of the popup. *)
Theorem popup_sem_escape (u : Unidade) (n r e c : string) :
  nome u = Some n ->
  rede u = Some r -> r <> EmptyString ->
  endereco_original u = Some e -> e <> EmptyString ->
  cnpj u = Some c -> c <> EmptyString ->
  contem (makePopupHtml u) ("popup-title" ++ aspas ++ ">" ++ n ++ "</div>") /\
  contem (makePopupHtml u) ("<strong>Rede:</strong> " ++ r ++ nl) /\
  contem (makePopupHtml u) ("<strong>Endereço:</strong> " ++ e ++ nl) /\
  contem (makePopupHtml u) ("<strong>CNPJ:</strong> " ++ c ++ nl).
Proof.
  intros En Er Hr Ee He Ec Hc.
  assert (On : ou (nome u) vazio = n).
  { rewrite En. unfold ou. simpl. by destruct n. }
  assert (Or : ou (rede u) "N/A" = r).
  { rewrite Er. unfold ou. simpl. by destruct r. }
  assert (Oe : ou (endereco_original u) "N/A" = e).
  { rewrite Ee. unfold ou. simpl. by destruct e. }
  assert (Oc : ou (cnpj u) "N/A" = c).
  { rewrite Ec. unfold ou. simpl. by destruct c. }
  unfold makePopupHtml. rewrite On, Or, Oe, Oc.
  split; [|split; [|split]].
  - eexists (nl ++ "    <div class=" ++ aspas)%string, _.
    rewrite !anexa_assoc. reflexivity.
  - eexists (nl ++ "    <div class=" ++ aspas ++ "popup-title" ++ aspas
             ++ ">" ++ n ++ "</div>" ++ nl ++ "    <div style=" ++ aspas
             ++ "font-size:.9rem;margin-top:6px;" ++ aspas ++ ">" ++ nl
             ++ "      ")%string, _.
    rewrite !anexa_assoc. reflexivity.
  - eexists (nl ++ "    <div class=" ++ aspas ++ "popup-title" ++ aspas
             ++ ">" ++ n ++ "</div>" ++ nl ++ "    <div style=" ++ aspas
             ++ "font-size:.9rem;margin-top:6px;" ++ aspas ++ ">" ++ nl
             ++ "      <strong>Rede:</strong> " ++ r ++ nl
             ++ "    </div>" ++ nl
             ++ "    <div style=" ++ aspas ++ "font-size:.9rem;" ++ aspas
             ++ ">" ++ nl ++ "      ")%string, _.
    rewrite !anexa_assoc. reflexivity.
  - eexists (nl ++ "    <div class=" ++ aspas ++ "popup-title" ++ aspas
             ++ ">" ++ n ++ "</div>" ++ nl ++ "    <div style=" ++ aspas
             ++ "font-size:.9rem;margin-top:6px;" ++ aspas ++ ">" ++ nl
             ++ "      <strong>Rede:</strong> " ++ r ++ nl
             ++ "    </div>" ++ nl
             ++ "    <div style=" ++ aspas ++ "font-size:.9rem;" ++ aspas
             ++ ">" ++ nl ++ "      <strong>Endereço:</strong> " ++ e ++ nl
             ++ "    </div>" ++ nl
             ++ "    <div style=" ++ aspas
             ++ "font-size:.85rem;color:var(--muted);margin-top:6px;"
             ++ aspas ++ ">" ++ nl ++ "      ")%string, _.
    rewrite !anexa_assoc. reflexivity.
Qed.

End MapaMais.

(** ** More on the page functions *)

Module PaginaMais.
Import Mapa Pagina Filtro FiltroFacts PaginaFacts Controles EspecPainel.

Section ComHost.
Context `{Host}.

Lemma wp_conseq {A} (m : M A) (Q Q' : A -> Page -> Prop) (p : Page) :
  wp m Q p -> (forall a p', Q a p' -> Q' a p') -> wp m Q' p.
Proof. intros (p' & a & E & HQ) Himp. exists p', a. auto. Qed.

(** The last page of a run of [applyFilters]. *)
Lemma applyFilters_final (p : Page) (us : list Unidade) :
  heap p !! unidades p = Some us ->
  exists r q,
    emCurso p (resultado us (lerFiltrosForm (form p))) r q /\
    applyFilters p = (redesenhada r q, inr ()).
Proof.
  intros Hu.
  set (f := lerFiltrosForm (form p)).
  set (p1 := com_status "Filtrando..." p).
  cut (wp applyFilters (fun _ p' =>
         exists r q, emCurso p (resultado us f) r q /\ p' = redesenhada r q) p).
  { intros (p' & [] & E & r & q & Hi & ->). eauto. }
  unfold applyFilters.
  apply wp_bind, wp_escrever. fold p1.
  apply wp_bind, wp_ler. change (form p1) with (form p). fold f.
  apply wp_bind, wp_ler.
  apply wp_bind. unfold copiar. apply wp_bind, wp_ler, wp_alocar.
  assert (Ed : deref p1 (unidades p1) = us)
    by (unfold deref; simpl; by rewrite Hu).
  rewrite Ed. clear Ed.
  assert (H0 : emCurso p us (fresh (dom (heap p1)))
                 (com_heap (<[fresh (dom (heap p1)) := us]> (heap p1)) p1)).
  { apply emCurso_alocar; [reflexivity | by intros l Hl | reflexivity]. }
  set (r0 := fresh (dom (heap p1))) in *.
  set (q0 := com_heap (<[r0 := us]> (heap p1)) p1) in *.
  clearbody q0 r0.
  apply wp_bind.
  assert (K1 : wp (match f_redes f with
                   | [] => mret r0
                   | _ :: _ => filterArr (predRede f) r0
                   end)
                  (fun r q => emCurso p (passoRede f us) r q) q0).
  { unfold passoRede. destruct (f_redes f).
    - by apply wp_mret.
    - by apply (wp_filterArr p us). }
  eapply wp_conseq; [exact K1|]. clear K1. intros r1 q1 H1.
  apply wp_bind.
  assert (K2 : wp (if estadoSelecionado f
                   then filterArr (predEstado f) r1 else mret r1)
                  (fun r q => emCurso p (passoEstado f (passoRede f us)) r q)
                  q1).
  { unfold passoEstado. destruct (estadoSelecionado f).
    - by apply (wp_filterArr p (passoRede f us)).
    - by apply wp_mret. }
  eapply wp_conseq; [exact K2|]. clear K2. intros r2 q2 H2.
  apply wp_bind.
  assert (K3 : wp (if naoVazio (f_cnpj f)
                   then filterArr (predCnpj f) r2 else mret r2)
                  (fun r q =>
                     emCurso p (passoCnpj f (passoEstado f (passoRede f us)))
                             r q) q2).
  { unfold passoCnpj. destruct (naoVazio (f_cnpj f)).
    - by apply (wp_filterArr p (passoEstado f (passoRede f us))).
    - by apply wp_mret. }
  eapply wp_conseq; [exact K3|]. clear K3. intros r3 q3 H3.
  apply wp_bind.
  assert (K4 : wp (if naoVazio (f_nome f)
                   then filterArr (predNome f) r3 else mret r3)
                  (fun r q => emCurso p (filtrar f us) r q) q3).
  { unfold filtrar, passoNome. destruct (naoVazio (f_nome f)).
    - by apply (wp_filterArr p
                  (passoCnpj f (passoEstado f (passoRede f us)))).
    - by apply wp_mret. }
  eapply wp_conseq; [exact K4|]. clear K4. intros r4 q4 H4.
  apply wp_bind, (wp_ordenarArr p (filtrar f us)); [exact H4|].
  fold (resultado us f). clear H4 q4. intros q5 H5.
  apply wp_bind. unfold atualizarMapa. apply wp_escrever.
  unfold setStatus. apply wp_escrever.
  exists r4, q5. split; [exact H5 | reflexivity].
Qed.

Lemma redesenhada_emDia (p q : Page) (us : list Unidade) (r : loc) :
  heap p !! unidades p = Some us ->
  emCurso p (resultado us (lerFiltrosForm (form p))) r q ->
  emDia us (redesenhada r q) /\
  unidades (redesenhada r q) = unidades p /\
  unidadesAtuais (redesenhada r q) = r /\
  form (redesenhada r q) = form p /\
  clustersAtivos (redesenhada r q) = clustersAtivos p /\
  legend (redesenhada r q) = legend p /\
  requests (redesenhada r q) = requests p /\
  console (redesenhada r q) = console p /\
  preserva p (redesenhada r q) /\
  (r ∉ dom (heap p)).
Proof.
  intros Hu (Hr & Hp & Hd & Hn & Hc).
  injection Hr as R1 R2 R3 R4 R5 R6 R7 R8 R9 R10 R11.
  assert (Ed : deref q r = resultado us (lerFiltrosForm (form p)))
    by (unfold deref; by rewrite Hc).
  assert (Eu : heap q !! unidades q = Some us).
  { rewrite R1, Hp; [exact Hu|]. apply elem_of_dom. eauto. }
  unfold emDia, preserva, redesenhada, visiveis, deref.
  destruct (clustersAtivos q) eqn:Ec; simpl; rewrite ?Ec; simpl;
    rewrite ?Ed, ?Hc, ?R8, ?app_nil_r;
    repeat split; try assumption; rewrite ?Ec; try reflexivity; congruence.
Qed.

(** What a run of [applyFilters] leaves behind. *)
Lemma applyFilters_emDia (p : Page) (us : list Unidade) :
  heap p !! unidades p = Some us ->
  snd (applyFilters p) = inr () /\
  emDia us (fst (applyFilters p)) /\
  unidades (fst (applyFilters p)) = unidades p /\
  form (fst (applyFilters p)) = form p /\
  clustersAtivos (fst (applyFilters p)) = clustersAtivos p /\
  legend (fst (applyFilters p)) = legend p /\
  requests (fst (applyFilters p)) = requests p /\
  console (fst (applyFilters p)) = console p /\
  preserva p (fst (applyFilters p)).
Proof.
  intros Hu. destruct (applyFilters_final p us Hu) as (r & q & Hi & ->).
  destruct (redesenhada_emDia p q us r Hu Hi)
    as (He & E1 & _ & E2 & E3 & E4 & E5 & E6 & Hp & _).
  cbn [fst snd].
  exact (conj eq_refl (conj He (conj E1 (conj E2 (conj E3 (conj E4
           (conj E5 (conj E6 Hp)))))))).
Qed.

(** An array made by one run is there afterwards, and was not before. *)
Lemma applyFilters_array_novo (p : Page) (us : list Unidade) :
  heap p !! unidades p = Some us ->
  is_Some (heap (fst (applyFilters p))
             !! unidadesAtuais (fst (applyFilters p))) /\
  (unidadesAtuais (fst (applyFilters p)) ∉ dom (heap p)).
Proof.
  intros Hu. destruct (applyFilters_final p us Hu) as (r & q & Hi & ->).
  destruct (redesenhada_emDia p q us r Hu Hi)
    as (_ & _ & Er & _ & _ & _ & _ & _ & _ & Hn).
  destruct Hi as (_ & _ & _ & _ & Hc).
  cbn [fst]. rewrite Er. split; [|exact Hn].
  exists (resultado us (lerFiltrosForm (form p))).
  unfold redesenhada. simpl. by destruct (clustersAtivos q).
Qed.

(** X14.  Running [applyFilters] again with nothing changed in between
    shows the same units and the same markers, on the same layer, with the
    same status; only the array handed to the map is a new one each
    time. *)
Theorem applyFilters_duas_vezes (p : Page) (us : list Unidade) :
  heap p !! unidades p = Some us ->
  emDia us (fst (applyFilters (fst (applyFilters p)))) /\
  status (fst (applyFilters (fst (applyFilters p))))
    = status (fst (applyFilters p)) /\
  deref (fst (applyFilters (fst (applyFilters p))))
        (unidadesAtuais (fst (applyFilters (fst (applyFilters p)))))
    = deref (fst (applyFilters p)) (unidadesAtuais (fst (applyFilters p))) /\
  markersLayer (fst (applyFilters (fst (applyFilters p))))
    = markersLayer (fst (applyFilters p)) /\
  clusterGroup (fst (applyFilters (fst (applyFilters p))))
    = clusterGroup (fst (applyFilters p)) /\
  visiveis (fst (applyFilters (fst (applyFilters p))))
    = visiveis (fst (applyFilters p)) /\
  noMapaCluster (fst (applyFilters (fst (applyFilters p))))
    = noMapaCluster (fst (applyFilters p)) /\
  unidadesAtuais (fst (applyFilters (fst (applyFilters p))))
    <> unidadesAtuais (fst (applyFilters p)).
Proof.
  intros Hu.
  destruct (applyFilters_emDia p us Hu)
    as (_ & D1 & _ & F1 & C1 & _ & _ & _ & _).
  destruct (applyFilters_array_novo p us Hu) as (S1 & _).
  set (p1 := fst (applyFilters p)) in *.
  pose proof D1 as (Hu1 & St1 & Dr1 & Ml1 & Vs1 & Cg1 & Nc1 & Nm1).
  destruct (applyFilters_emDia p1 us Hu1)
    as (_ & D2 & _ & F2 & C2 & _ & _ & _ & _).
  destruct (applyFilters_array_novo p1 us Hu1) as (_ & N2).
  set (p2 := fst (applyFilters p1)) in *.
  pose proof D2 as (Hu2 & St2 & Dr2 & Ml2 & Vs2 & Cg2 & Nc2 & Nm2).
  split; [exact D2|].
  rewrite St2, Dr2, Ml2, Vs2, Cg2, Nc2, Ml2, C2, F2.
  rewrite St1, Dr1, Ml1, Vs1, Cg1, Nc1, Ml1.
  repeat split.
  intros E. apply N2. rewrite E. by apply elem_of_dom.
Qed.

End ComHost.

(** X13.  [atualizarMapa] rebuilds: what an earlier redraw put on the
    layers leaves no trace in a later one.  The user sees the markers of
    the list whether clustering is on or off, and exactly one of the two
    layers is attached to the map. *)
Theorem atualizarMapa_reconstroi `{Host} (a b : loc) (p : Page) :
  fst (atualizarMapa b (fst (atualizarMapa a p))) = fst (atualizarMapa b p) /\
  visiveis (fst (atualizarMapa a p)) = marcadores (deref p a) /\
  markersLayer (fst (atualizarMapa a p)) = marcadores (deref p a) /\
  noMapaCluster (fst (atualizarMapa a p))
    = negb (noMapaMarkers (fst (atualizarMapa a p))) /\
  noMapaCluster (fst (atualizarMapa a p)) = clustersAtivos p /\
  heap (fst (atualizarMapa a p)) = heap p.
Proof.
  unfold atualizarMapa, escrever, visiveis. simpl.
  destruct (clustersAtivos p) eqn:E; simpl; rewrite ?E, ?app_nil_r;
    repeat split; reflexivity.
Qed.

Lemma lidas_todas (redes : list string) :
  map fst (List.filter snd (map (fun r : string => (r, true)) redes)) = redes.
Proof. induction redes as [|r l IH]; simpl; [reflexivity|]. by rewrite IH. Qed.

(** The boxes of the rows of simple names: one per name, checked. *)
Lemma caixas_das_linhas `{Host} {HH : HtmlLaws _} (redes : list string) :
  Forall nomeSimples redes ->
  flat_map (fun r => caixasDe (linhaHtml r)) redes
  = map (fun r => (r, true)) redes.
Proof.
  induction 1 as [|r l Hr Hl IH]; simpl; [reflexivity|].
  by rewrite (caixasDe_linha r Hr), IH.
Qed.

(** X15.  After [renderRedes] the form reads back the names it was given,
    provided they are simple and the parser reads the row of a simple
    name as one checked box with the name as its value: [lerFiltrosForm]
    returns the whole list, in order.  The legend gets one item per name
    and the other criteria are as before. *)
Theorem renderRedes_e_lido `{Host} {HH : HtmlLaws _} (redes : list string)
    (p : Page) :
  Forall nomeSimples redes ->
  f_redes (lerFiltrosForm (form (fst (renderRedes redes p)))) = redes /\
  checkboxes (form (fst (renderRedes redes p)))
    = map (fun r => (r, true)) redes /\
  length (legend (fst (renderRedes redes p))) = length redes /\
  f_estado (lerFiltrosForm (form (fst (renderRedes redes p))))
    = f_estado (lerFiltrosForm (form p)) /\
  f_cnpj (lerFiltrosForm (form (fst (renderRedes redes p))))
    = f_cnpj (lerFiltrosForm (form p)) /\
  f_nome (lerFiltrosForm (form (fst (renderRedes redes p))))
    = f_nome (lerFiltrosForm (form p)) /\
  f_ordenar (lerFiltrosForm (form (fst (renderRedes redes p))))
    = f_ordenar (lerFiltrosForm (form p)).
Proof.
  intros Hs. simpl. rewrite (caixas_das_linhas redes Hs), lidas_todas.
  rewrite length_map. repeat split; reflexivity.
Qed.

Section Carga.
Context `{Host} {HH : HtmlLaws _}.

(** X16.  When both requests are answered with JSON and the network names
    are simple, [carregarDados] fetches the network names first and the
    units second, stores the units, checks every network box and draws
    the map from the stored units and the form; the status ends as loaded
    and nothing goes to the console.  The arrays that existed before are
    untouched. *)
Theorem carregarDados_sucesso (redes : list string) (us : list Unidade)
    (p : Page) :
  Forall nomeSimples redes ->
  snd (carregarDados {| respRedes := Json redes; respAll := Json us |} p)
    = inr () /\
  status (fst (carregarDados {| respRedes := Json redes;
                                respAll := Json us |} p))
    = "Dados carregados." /\
  deref (fst (carregarDados {| respRedes := Json redes;
                               respAll := Json us |} p))
        (unidades (fst (carregarDados {| respRedes := Json redes;
                                         respAll := Json us |} p))) = us /\
  f_redes (lerFiltrosForm
             (form (fst (carregarDados {| respRedes := Json redes;
                                          respAll := Json us |} p))))
    = redes /\
  deref (fst (carregarDados {| respRedes := Json redes;
                               respAll := Json us |} p))
        (unidadesAtuais (fst (carregarDados {| respRedes := Json redes;
                                               respAll := Json us |} p)))
    = resultado us
        (lerFiltrosForm
           (form (fst (carregarDados {| respRedes := Json redes;
                                        respAll := Json us |} p)))) /\
  visiveis (fst (carregarDados {| respRedes := Json redes;
                                  respAll := Json us |} p))
    = marcadores
        (resultado us
           (lerFiltrosForm
              (form (fst (carregarDados {| respRedes := Json redes;
                                           respAll := Json us |} p))))) /\
  requests (fst (carregarDados {| respRedes := Json redes;
                                  respAll := Json us |} p))
    = requests p ++ [ENDPOINT_REDES; ENDPOINT_ALL] /\
  console (fst (carregarDados {| respRedes := Json redes;
                                 respAll := Json us |} p)) = console p /\
  preserva p (fst (carregarDados {| respRedes := Json redes;
                                    respAll := Json us |} p)).
Proof.
  intros Hs.
  set (p0 := com_request ENDPOINT_ALL
               (com_redes (flat_map (fun r => caixasDe (linhaHtml r)) redes)
                          (map itemHtml redes)
                  (com_request ENDPOINT_REDES
                     (com_status "Carregando dados..." p)))).
  set (a := fresh (dom (heap p0))).
  set (p3 := com_unidades a (com_heap (<[a := us]> (heap p0)) p0)).
  assert (E : carregarDados {| respRedes := Json redes; respAll := Json us |} p
              = (com_status "Dados carregados." (fst (applyFilters p3)),
                 inr ())) by reflexivity.
  rewrite E. clear E. cbn [fst snd].
  assert (Hu : heap p3 !! unidades p3 = Some us)
    by (simpl; apply lookup_insert_eq).
  destruct (applyFilters_emDia p3 us Hu)
    as (_ & (Hu' & _ & Dr & _ & Vs & _) & Eu & Ef & _ & _ & Er & Ec & Hp).
  set (p4 := fst (applyFilters p3)) in *.
  assert (Hf : a ∉ dom (heap p)) by apply (is_fresh (dom (heap p))).
  split; [reflexivity|]. split; [reflexivity|].
  split. { unfold deref. simpl. by rewrite Hu'. }
  split. { simpl. rewrite Ef. simpl.
           rewrite (caixas_das_linhas redes Hs). apply lidas_todas. }
  split. { exact Dr. }
  split. { exact Vs. }
  split. { simpl. rewrite Er. simpl. by rewrite <- app_assoc. }
  split. { simpl. exact Ec. }
  intros l Hl. simpl. rewrite Hp.
  - simpl. rewrite lookup_insert_ne; [reflexivity|]. intros <-. by apply Hf.
  - simpl. rewrite dom_insert_L. set_solver.
Qed.

(** X17.  When the first request fails the second is never issued and the
    panel keeps the boxes and the legend it had; the exception is logged
    once, a rejected fetch as such, a body that is not JSON as a syntax
    error. *)
Theorem carregarDados_falha_primeira (srv : Servidor) (p : Page) :
  falhou (respRedes srv) ->
  requests (fst (carregarDados srv p)) = requests p ++ [ENDPOINT_REDES] /\
  form (fst (carregarDados srv p)) = form p /\
  legend (fst (carregarDados srv p)) = legend p /\
  console (fst (carregarDados srv p))
    = console p ++ [match respRedes srv with
                    | FalhaRede => ErroDeRede
                    | _ => ErroDeSintaxe
                    end].
Proof.
  destruct srv as [r1 r2]. simpl. intros [-> | ->]; repeat split.
Qed.

(** X18.  When the first request succeeds and the second fails, both
    requests have been issued once, in this order, and the network boxes
    and the legend are already those of the answer, the legend holding
    the item HTML of each name: the panel is rendered although no unit
    is. *)
Theorem carregarDados_falha_segunda (redes : list string)
    (r2 : Resposta (list Unidade)) (p : Page) :
  Forall nomeSimples redes -> falhou r2 ->
  requests (fst (carregarDados {| respRedes := Json redes;
                                  respAll := r2 |} p))
    = requests p ++ [ENDPOINT_REDES; ENDPOINT_ALL] /\
  f_redes (lerFiltrosForm
             (form (fst (carregarDados {| respRedes := Json redes;
                                          respAll := r2 |} p)))) = redes /\
  legend (fst (carregarDados {| respRedes := Json redes;
                                respAll := r2 |} p))
    = map itemHtml redes /\
  heap (fst (carregarDados {| respRedes := Json redes;
                              respAll := r2 |} p)) = heap p /\
  console (fst (carregarDados {| respRedes := Json redes;
                                 respAll := r2 |} p))
    = console p ++ [match r2 with
                    | FalhaRede => ErroDeRede
                    | _ => ErroDeSintaxe
                    end].
Proof.
  intros Hs [-> | ->]; simpl;
    rewrite (caixas_das_linhas redes Hs), lidas_todas, <- app_assoc;
    repeat split; reflexivity.
Qed.

End Carga.

End PaginaMais.

(** ** The listeners of the control panel *)

Module ControlesTeoremas.
Import Mapa Pagina Filtro FiltroFacts PaginaFacts PaginaMais Controles.
Import EspecPainel.

Lemma nomes_marcar (i : nat) (b : bool) (l : list (string * bool)) :
  map fst (alter (fun c => (fst c, b)) i l) = map fst l.
Proof.
  revert i. induction l as [|c l IH]; intros [|i]; try reflexivity.
  cbn. f_equal. apply IH.
Qed.

Lemma nomes_formLimpo (l : list (string * bool)) :
  map fst (map (fun c : string * bool => (fst c, true)) l) = map fst l.
Proof. induction l as [|c l IH]; simpl; [reflexivity|]. by rewrite IH. Qed.

Lemma lidas_formLimpo (l : list (string * bool)) :
  map fst (List.filter snd (map (fun c : string * bool => (fst c, true)) l))
  = map fst l.
Proof. induction l as [|c l IH]; simpl; [reflexivity|]. by rewrite IH. Qed.

Section ComHost.
Context `{Host}.

(** After one event, whatever it is, the map shows what the form asks
    for; the unit list, the network names and the log of requests are as
    before. *)
Lemma reagir_emDia (e : Evento) (pn : Painel) (us : list Unidade) :
  heap (pagina pn) !! unidades (pagina pn) = Some us ->
  emDia us (pagina (reagir e pn)) /\
  unidades (pagina (reagir e pn)) = unidades (pagina pn) /\
  nomesDasRedes (pagina (reagir e pn)) = nomesDasRedes (pagina pn) /\
  requests (pagina (reagir e pn)) = requests (pagina pn) /\
  preserva (pagina pn) (pagina (reagir e pn)).
Proof.
  intros Hu. set (p := pagina pn) in *.
  assert (K : forall g : Page -> Page,
             heap (g p) = heap p -> unidades (g p) = unidades p ->
             requests (g p) = requests p ->
             nomesDasRedes (g p) = nomesDasRedes p ->
             emDia us (fst (applyFilters (g p))) /\
             unidades (fst (applyFilters (g p))) = unidades p /\
             nomesDasRedes (fst (applyFilters (g p))) = nomesDasRedes p /\
             requests (fst (applyFilters (g p))) = requests p /\
             preserva p (fst (applyFilters (g p)))).
  { intros g Eh Eu Er En.
    assert (Hg : heap (g p) !! unidades (g p) = Some us)
      by (by rewrite Eh, Eu).
    destruct (applyFilters_emDia (g p) us Hg)
      as (_ & D & U & F & _ & _ & R & _ & P).
    split; [exact D|]. split; [congruence|].
    split; [unfold nomesDasRedes in *; congruence|].
    split; [congruence|].
    intros l Hl. rewrite P; [by rewrite Eh|by rewrite Eh]. }
  destruct e; simpl; unfold aposEdicao, onFiltroChange, semAwait; simpl.
  - apply (K (fun q => com_form (marcar i b (form q)) q)); try reflexivity.
    unfold nomesDasRedes. simpl. apply nomes_marcar.
  - by apply (K (fun q => com_form (com_estado v (form q)) q)).
  - by apply (K (fun q => com_form (com_cnpj v (form q)) q)).
  - by apply (K (fun q => com_form (com_nome v (form q)) q)).
  - by apply (K (fun q => com_form (com_ordenar v (form q)) q)).
  - by apply (K (fun q => com_form (form q) q)).
  - by apply (K (fun q => com_clustersAtivos b q)).
  - apply (K (fun q => com_clustersAtivos true
                         (com_form (formLimpo (form q)) q)));
      try reflexivity.
    unfold nomesDasRedes. simpl. apply nomes_formLimpo.
Qed.

(** X19.  Along any session of panel events the page stays in step with
    the form: after each event the array shown, the markers and the
    attached layer are those of the current form and cluster switch.  No
    event changes the unit list, the set of network boxes, or issues a
    request. *)
Theorem sessao_emDia (evs : list Evento) (pn : Painel) (us : list Unidade) :
  heap (pagina pn) !! unidades (pagina pn) = Some us ->
  evs <> [] ->
  emDia us (pagina (executar evs pn)) /\
  unidades (pagina (executar evs pn)) = unidades (pagina pn) /\
  nomesDasRedes (pagina (executar evs pn)) = nomesDasRedes (pagina pn) /\
  requests (pagina (executar evs pn)) = requests (pagina pn) /\
  preserva (pagina pn) (pagina (executar evs pn)).
Proof.
  intros Hu Hne. destruct evs as [|e evs]; [done|clear Hne].
  revert e pn Hu. induction evs as [|e' evs IH]; intros e pn Hu.
  - simpl. by apply reagir_emDia.
  - destruct (reagir_emDia e pn us Hu) as (D & U & N & R & P).
    pose proof D as (Hu1 & _).
    destruct (IH e' (reagir e pn) Hu1) as (D' & U' & N' & R' & P').
    change (executar (e :: e' :: evs) pn)
      with (executar (e' :: evs) (reagir e pn)).
    split; [exact D'|]. split; [congruence|]. split; [congruence|].
    split; [congruence|].
    intros l Hl. rewrite P'; [by apply P|].
    apply elem_of_dom. rewrite P by exact Hl. by apply elem_of_dom.
Qed.

(** X20.  The clear action puts every control back: all boxes checked,
    Todos, empty texts, nome_az, clustering on.  The map then shows, on the
    cluster layer and sorted by name, the units whose network has a box,
    or every unit when there is no box. *)
Theorem limpar_restaura (pn : Painel) (us : list Unidade) :
  trim EmptyString = EmptyString ->
  heap (pagina pn) !! unidades (pagina pn) = Some us ->
  form (pagina (reagir Limpou pn)) = formLimpo (form (pagina pn)) /\
  toggleClusters (reagir Limpou pn) = true /\
  clustersAtivos (pagina (reagir Limpou pn)) = true /\
  noMapaCluster (pagina (reagir Limpou pn)) = true /\
  noMapaMarkers (pagina (reagir Limpou pn)) = false /\
  lerFiltrosForm (form (pagina (reagir Limpou pn)))
    = {| f_redes := nomesDasRedes (pagina pn); f_estado := "Todos";
         f_cnpj := EmptyString; f_nome := EmptyString;
         f_ordenar := "nome_az" |} /\
  deref (pagina (reagir Limpou pn)) (unidadesAtuais (pagina (reagir Limpou pn)))
    = sort cmp_nome_az
        (match nomesDasRedes (pagina pn) with
         | [] => us
         | _ :: _ =>
             List.filter
               (fun u => match rede u with
                         | Some r =>
                             existsb (String.eqb r) (nomesDasRedes (pagina pn))
                         | None => false
                         end) us
         end) /\
  visiveis (pagina (reagir Limpou pn))
    = marcadores (deref (pagina (reagir Limpou pn))
                        (unidadesAtuais (pagina (reagir Limpou pn)))).
Proof.
  intros Ht Hu. set (p := pagina pn) in *.
  set (p1 := com_clustersAtivos true (com_form (formLimpo (form p)) p)).
  assert (Hu1 : heap p1 !! unidades p1 = Some us) by exact Hu.
  destruct (applyFilters_emDia p1 us Hu1)
    as (_ & (_ & _ & Dr & _ & Vs & _ & Nc & Nm) & _ & Ef & Ec & _).
  change (pagina (reagir Limpou pn)) with (fst (applyFilters p1)).
  set (p2 := fst (applyFilters p1)) in *.
  assert (El : lerFiltrosForm (form p2)
               = {| f_redes := nomesDasRedes p; f_estado := "Todos";
                    f_cnpj := EmptyString; f_nome := EmptyString;
                    f_ordenar := "nome_az" |}).
  { rewrite Ef. unfold lerFiltrosForm, nomesDasRedes. simpl.
    by rewrite lidas_formLimpo, Ht. }
  split; [exact Ef|]. split; [reflexivity|]. split; [exact Ec|].
  split; [by rewrite Nc, Ec|]. split; [by rewrite Nm, Ec|].
  split; [exact El|].
  split; [|by rewrite Vs, Dr].
  rewrite Dr, El. unfold resultado, filtrar, passoNome, passoCnpj,
    passoEstado, passoRede, estadoSelecionado, predRede. simpl.
  by destruct (nomesDasRedes p).
Qed.

(** X21.  Switching clustering shows the same units and the same markers
    whichever way the switch goes; only the layer attached to the map
    differs. *)
Theorem alternar_mesmos_marcadores (b : bool) (pn : Painel)
    (us : list Unidade) :
  heap (pagina pn) !! unidades (pagina pn) = Some us ->
  deref (pagina (reagir (AlternouClusters b) pn))
        (unidadesAtuais (pagina (reagir (AlternouClusters b) pn)))
    = resultado us (lerFiltrosForm (form (pagina pn))) /\
  visiveis (pagina (reagir (AlternouClusters b) pn))
    = marcadores (resultado us (lerFiltrosForm (form (pagina pn)))) /\
  visiveis (pagina (reagir (AlternouClusters b) pn))
    = visiveis (pagina (reagir (AlternouClusters (negb b)) pn)) /\
  noMapaCluster (pagina (reagir (AlternouClusters b) pn)) = b /\
  noMapaMarkers (pagina (reagir (AlternouClusters b) pn)) = negb b /\
  toggleClusters (reagir (AlternouClusters b) pn) = b.
Proof.
  intros Hu. set (p := pagina pn) in *.
  assert (K : forall c,
    deref (fst (applyFilters (com_clustersAtivos c p)))
          (unidadesAtuais (fst (applyFilters (com_clustersAtivos c p))))
      = resultado us (lerFiltrosForm (form p)) /\
    visiveis (fst (applyFilters (com_clustersAtivos c p)))
      = marcadores (resultado us (lerFiltrosForm (form p))) /\
    noMapaCluster (fst (applyFilters (com_clustersAtivos c p))) = c /\
    noMapaMarkers (fst (applyFilters (com_clustersAtivos c p))) = negb c).
  { intros c.
    assert (Hc : heap (com_clustersAtivos c p)
                   !! unidades (com_clustersAtivos c p) = Some us) by exact Hu.
    destruct (applyFilters_emDia _ us Hc)
      as (_ & (_ & _ & Dr & _ & Vs & _ & Nc & Nm) & _ & Ef & Ec & _).
    rewrite Dr, Vs, Nc, Nm, Ef, Ec. repeat split. }
  change (pagina (reagir (AlternouClusters b) pn))
    with (fst (applyFilters (com_clustersAtivos b p))).
  change (pagina (reagir (AlternouClusters (negb b)) pn))
    with (fst (applyFilters (com_clustersAtivos (negb b) p))).
  destruct (K b) as (D1 & V1 & C1 & M1).
  destruct (K (negb b)) as (_ & V2 & _ & _).
  rewrite V1, V2. repeat split; assumption.
Qed.

Lemma aposEdicao_clusters (g : Form -> Form) (pn : Painel)
    (us : list Unidade) :
  heap (pagina pn) !! unidades (pagina pn) = Some us ->
  clustersAtivos (pagina (aposEdicao g pn)) = clustersAtivos (pagina pn).
Proof.
  intros Hu. unfold aposEdicao, onFiltroChange, semAwait. simpl.
  set (q := com_form (g (form (pagina pn))) (pagina pn)).
  assert (Hq : heap q !! unidades q = Some us) by exact Hu.
  by destruct (applyFilters_emDia q us Hq) as (_ & _ & _ & _ & Ec & _).
Qed.

Lemma reagir_espelhado (e : Evento) (pn : Painel) (us : list Unidade) :
  heap (pagina pn) !! unidades (pagina pn) = Some us ->
  espelhado pn \/ atribuiClusters e -> espelhado (reagir e pn).
Proof.
  intros Hu Hm. unfold espelhado.
  destruct e; simpl in Hm;
    try (destruct Hm as [Hm|[]]; unfold reagir;
         rewrite (aposEdicao_clusters _ pn us Hu); exact Hm).
  - set (q := com_clustersAtivos b (pagina pn)).
    change (b = clustersAtivos (fst (applyFilters q))).
    assert (Hq : heap q !! unidades q = Some us) by exact Hu.
    by destruct (applyFilters_emDia q us Hq) as (_ & _ & _ & _ & -> & _).
  - set (q := com_clustersAtivos true
                (com_form (formLimpo (form (pagina pn))) (pagina pn))).
    change (true = clustersAtivos (fst (applyFilters q))).
    assert (Hq : heap q !! unidades q = Some us) by exact Hu.
    by destruct (applyFilters_emDia q us Hq) as (_ & _ & _ & _ & -> & _).
Qed.

(** X22.  Once the cluster switch or the clear button has been used, the
    check box and the variable [clustersAtivos] agree, and they keep
    agreeing whatever follows. *)
Theorem caixa_espelha_variavel (evs : list Evento) (pn : Painel)
    (us : list Unidade) :
  heap (pagina pn) !! unidades (pagina pn) = Some us ->
  espelhado pn \/ Exists atribuiClusters evs ->
  espelhado (executar evs pn).
Proof.
  revert pn. induction evs as [|e evs IH]; intros pn Hu Hor.
  - destruct Hor as [Hm|Hex]; [exact Hm | inversion Hex].
  - change (executar (e :: evs) pn) with (executar evs (reagir e pn)).
    destruct (reagir_emDia e pn us Hu) as ((Hu1 & _) & _).
    apply IH; [exact Hu1|].
    destruct Hor as [Hm|Hex].
    + left. apply (reagir_espelhado e pn us Hu). by left.
    + inversion Hex as [? ? He|? ? Hev]; subst.
      * left. apply (reagir_espelhado e pn us Hu). by right.
      * by right.
Qed.

End ComHost.

End ControlesTeoremas.

(** ** The further properties on the sample data *)

Module MaisExemplos.
Import Mapa Pagina Filtro Controles EspecPainel Exemplos ExemplosPainel.
Import FiltroMais MapaMais PaginaMais ControlesTeoremas.

#[local] Existing Instance Ascii7.host.

Ltac nomes_simples :=
  repeat constructor; vm_compute; intros X;
  repeat (destruct X as [X|X]; [discriminate|]); exact X.

Lemma redes_simples : Forall nomeSimples ["Novo Mix"; "Rede Mix"].
Proof. nomes_simples. Qed.

Lemma carregada_tem_unidades :
  heap paginaCarregada !! unidades paginaCarregada
  = Some [beta; alpha; semCampos].
Proof. vm_compute. reflexivity. Qed.

(** The session ends with the defaults restored and both geocoded units
    drawn on the cluster layer. *)
Example sessao_termina_limpa :
  form (pagina (executar sessao painelCarregado)) = formPadrao /\
  deref (pagina (executar sessao painelCarregado))
        (unidadesAtuais (pagina (executar sessao painelCarregado)))
    = [alpha; beta] /\
  noMapaCluster (pagina (executar sessao painelCarregado)) = true /\
  toggleClusters (executar sessao painelCarregado) = true.
Proof. repeat split; vm_compute; reflexivity. Qed.

(** While the name is typed only Alpha is shown. *)
Example sessao_nome_digitado :
  deref (pagina (executar [DigitouNome "al"] painelCarregado))
        (unidadesAtuais (pagina (executar [DigitouNome "al"] painelCarregado)))
    = [alpha].
Proof. vm_compute. reflexivity. Qed.

Lemma modo_nao_muda_unidades_witness :
  mesmosFiltros nenhumaRede nenhumaRedeZa /\
  Permutation (resultado [beta; alpha] nenhumaRede)
              (resultado [beta; alpha] nenhumaRedeZa).
Proof.
  assert (Hm : mesmosFiltros nenhumaRede nenhumaRedeZa)
    by (repeat split).
  split; [exact Hm|].
  exact (modo_nao_muda_unidades [beta; alpha] nenhumaRede nenhumaRedeZa Hm).
Defined.

Lemma sem_filtro_mostra_tudo_witness :
  semFiltro nenhumaRede /\
  (resultado [beta; alpha] nenhumaRede
     = ordenar (f_ordenar nenhumaRede) [beta; alpha] /\
   Permutation (resultado [beta; alpha] nenhumaRede) [beta; alpha]).
Proof.
  assert (Hs : semFiltro nenhumaRede).
  { split; [reflexivity|]. split; [right; reflexivity|].
    split; reflexivity. }
  split; [exact Hs|].
  exact (sem_filtro_mostra_tudo [beta; alpha] nenhumaRede Hs).
Defined.

Lemma filtro_ativo_exige_campo_witness :
  In alpha (resultado [alpha; beta] estadoSP) /\
  ((f_redes estadoSP = [] \/
    exists r, rede alpha = Some r /\ In r (f_redes estadoSP)) /\
   (f_cnpj estadoSP = EmptyString \/ campo (cnpj alpha) (fun _ => True)) /\
   (f_nome estadoSP = EmptyString \/ campo (nome alpha) (fun _ => True)) /\
   (f_estado estadoSP = EmptyString \/ f_estado estadoSP = "Todos" \/
    campo (estado alpha) (fun _ => True) \/
    campo (endereco_original alpha) (fun _ => True))).
Proof.
  assert (Hi : In alpha (resultado [alpha; beta] estadoSP))
    by (left; reflexivity).
  split; [exact Hi|].
  exact (filtro_ativo_exige_campo [alpha; beta] estadoSP alpha Hi).
Defined.

Lemma resultado_filtra_ordenada_witness :
  HostLaws Ascii7.host /\
  (resultado [beta; alpha] soNovoMix
     = List.filter (aceita soNovoMix)
                   (ordenar (f_ordenar soNovoMix) [beta; alpha]) /\
   sublist (resultado [beta; alpha] soNovoMix)
           (ordenar (f_ordenar soNovoMix) [beta; alpha])).
Proof.
  split; [exact Ascii7Facts.host_laws|].
  exact (@resultado_filtra_ordenada Ascii7.host Ascii7Facts.host_laws
           [beta; alpha] soNovoMix).
Defined.

Lemma descendente_e_reverso_witness :
  HostLaws Ascii7.host /\
  In ("nome_az", nome, false, cmp_nome_az) modos /\
  In ("nome_za", nome, true, cmp_nome_za) modos /\
  mesmosFiltros nenhumaRede nenhumaRedeZa /\
  (forall a b, In a (filtrar nenhumaRede [beta; alpha]) ->
               In b (filtrar nenhumaRede [beta; alpha]) ->
               localeCompare (chave nome a) (chave nome b) = 0%Z -> a = b) /\
  resultado [beta; alpha] nenhumaRedeZa
    = rev (resultado [beta; alpha] nenhumaRede).
Proof.
  assert (Haz : In ("nome_az", nome, false, cmp_nome_az) modos)
    by (left; reflexivity).
  assert (Hza : In ("nome_za", nome, true, cmp_nome_za) modos)
    by (right; left; reflexivity).
  assert (Hm : mesmosFiltros nenhumaRede nenhumaRedeZa) by (repeat split).
  assert (Hk : forall a b, In a (filtrar nenhumaRede [beta; alpha]) ->
               In b (filtrar nenhumaRede [beta; alpha]) ->
               localeCompare (chave nome a) (chave nome b) = 0%Z -> a = b).
  { intros a b Ha Hb.
    change (In a [beta; alpha]) in Ha. change (In b [beta; alpha]) in Hb.
    destruct Ha as [<-|[<-|[]]], Hb as [<-|[<-|[]]];
      try reflexivity; vm_compute; discriminate. }
  split; [exact Ascii7Facts.host_laws|].
  split; [exact Haz|]. split; [exact Hza|]. split; [exact Hm|].
  split; [exact Hk|].
  exact (@descendente_e_reverso Ascii7.host Ascii7Facts.host_laws
           "nome_az" "nome_za" nome cmp_nome_az cmp_nome_za
           [beta; alpha] nenhumaRede nenhumaRedeZa
           Haz Hza Hm eq_refl eq_refl Hk).
Defined.

Lemma estado_sem_caixa_witness :
  HostLaws Ascii7.host /\
  mesmoTexto (estado alpha) (estado alphaMinusculas) /\
  mesmoTexto (endereco_original alpha) (endereco_original alphaMinusculas) /\
  toLowerCase (f_estado estadoSP) = toLowerCase (f_estado estadoSPMinusculo) /\
  predEstado estadoSP alpha = predEstado estadoSPMinusculo alphaMinusculas.
Proof.
  split; [exact Ascii7Facts.host_laws|].
  split; [reflexivity|]. split; [reflexivity|]. split; [reflexivity|].
  exact (@estado_sem_caixa Ascii7.host Ascii7Facts.host_laws
           estadoSP estadoSPMinusculo alpha alphaMinusculas
           eq_refl eq_refl eq_refl).
Defined.

(** The colours on the 7-bit host: a network of the table has its own
    colour, an unknown or missing one the default, and one named like a
    member of [Object.prototype] the text of that member. *)
Example cores_no_host :
  corDaRede (Some "Novo Mix") = "#1f77b4" /\
  corDaRede (Some "Outra") = "#2ca02c" /\
  corDaRede None = "#2ca02c" /\
  corDaRede (Some "constructor") = "function Object() { [native code] }".
Proof.
  split; [reflexivity|]. split; [reflexivity|]. split; reflexivity.
Qed.

Lemma marcador_vem_de_unidade_witness :
  In marcadorAlpha (marcadores [semCampos; alpha]) /\
  exists u, In u [semCampos; alpha] /\
    latitude u = Some (fst (latlng marcadorAlpha)) /\
    longitude u = Some (snd (latlng marcadorAlpha)) /\
    popup marcadorAlpha = makePopupHtml u /\
    contem (html (icon marcadorAlpha)) ("background:" ++ corDaRede (rede u)).
Proof.
  assert (Hi : In marcadorAlpha (marcadores [semCampos; alpha]))
    by (left; reflexivity).
  split; [exact Hi|].
  exact (marcador_vem_de_unidade [semCampos; alpha] marcadorAlpha Hi).
Defined.

Lemma popup_sem_escape_witness :
  nome alphaMarcado = Some "<b>Alpha</b>" /\
  contem (makePopupHtml alphaMarcado)
         ("popup-title" ++ aspas ++ ">" ++ "<b>Alpha</b>" ++ "</div>").
Proof.
  split; [reflexivity|].
  refine (proj1 (popup_sem_escape alphaMarcado "<b>Alpha</b>" "Novo Mix"
                   "Av. Paulista 1000, Sao Paulo-SP" "11.111.111/0001-11"
                   eq_refl eq_refl _ eq_refl _ eq_refl _)); discriminate.
Defined.

Lemma applyFilters_duas_vezes_witness :
  heap paginaCarregada !! unidades paginaCarregada
    = Some [beta; alpha; semCampos] /\
  visiveis (fst (applyFilters (fst (applyFilters paginaCarregada))))
    = visiveis (fst (applyFilters paginaCarregada)).
Proof.
  split; [exact carregada_tem_unidades|].
  exact (proj1 (proj2 (proj2 (proj2 (proj2 (proj2
           (applyFilters_duas_vezes paginaCarregada
              [beta; alpha; semCampos] carregada_tem_unidades))))))).
Defined.

Lemma renderRedes_e_lido_witness :
  HtmlLaws Ascii7.host /\
  Forall nomeSimples ["Novo Mix"; "Rede Mix"] /\
  f_redes (lerFiltrosForm
             (form (fst (renderRedes ["Novo Mix"; "Rede Mix"]
                           (paginaInicial "..." formPadrao)))))
    = ["Novo Mix"; "Rede Mix"].
Proof.
  split; [exact Ascii7Facts.html_laws|]. split; [exact redes_simples|].
  exact (proj1 (@renderRedes_e_lido Ascii7.host Ascii7Facts.html_laws
                  ["Novo Mix"; "Rede Mix"]
                  (paginaInicial "..." formPadrao) redes_simples)).
Defined.

Lemma carregarDados_sucesso_witness :
  HtmlLaws Ascii7.host /\
  Forall nomeSimples ["Novo Mix"; "Rede Mix"] /\
  status (fst (carregarDados
                 {| respRedes := Json ["Novo Mix"; "Rede Mix"];
                    respAll := Json [beta; alpha; semCampos] |}
                 (paginaInicial "..." formPadrao)))
    = "Dados carregados.".
Proof.
  split; [exact Ascii7Facts.html_laws|]. split; [exact redes_simples|].
  exact (proj1 (proj2 (@carregarDados_sucesso Ascii7.host
                         Ascii7Facts.html_laws ["Novo Mix"; "Rede Mix"]
                         [beta; alpha; semCampos]
                         (paginaInicial "..." formPadrao) redes_simples))).
Defined.

Lemma carregarDados_falha_primeira_witness :
  falhou (respRedes servidorMudo) /\
  requests (fst (carregarDados servidorMudo (paginaInicial "..." formPadrao)))
    = requests (paginaInicial "..." formPadrao) ++ [ENDPOINT_REDES].
Proof.
  assert (Hf : falhou (respRedes servidorMudo)) by (left; reflexivity).
  split; [exact Hf|].
  exact (proj1 (carregarDados_falha_primeira servidorMudo
                  (paginaInicial "..." formPadrao) Hf)).
Defined.

Lemma carregarDados_falha_segunda_witness :
  HtmlLaws Ascii7.host /\
  Forall nomeSimples ["Novo Mix"; "Rede Mix"] /\
  falhou (@CorpoInvalido (list Unidade)) /\
  f_redes (lerFiltrosForm
             (form (fst (carregarDados
                           {| respRedes := Json ["Novo Mix"; "Rede Mix"];
                              respAll := CorpoInvalido |}
                           (paginaInicial "..." formPadrao)))))
    = ["Novo Mix"; "Rede Mix"].
Proof.
  assert (Hf : falhou (@CorpoInvalido (list Unidade))) by (right; reflexivity).
  split; [exact Ascii7Facts.html_laws|].
  split; [exact redes_simples|]. split; [exact Hf|].
  exact (proj1 (proj2 (@carregarDados_falha_segunda Ascii7.host
                         Ascii7Facts.html_laws ["Novo Mix"; "Rede Mix"]
                         CorpoInvalido (paginaInicial "..." formPadrao)
                         redes_simples Hf))).
Defined.

Lemma sessao_emDia_witness :
  heap (pagina painelCarregado) !! unidades (pagina painelCarregado)
    = Some [beta; alpha; semCampos] /\
  sessao <> [] /\
  emDia [beta; alpha; semCampos] (pagina (executar sessao painelCarregado)).
Proof.
  assert (Hne : sessao <> []) by discriminate.
  split; [exact carregada_tem_unidades|]. split; [exact Hne|].
  exact (proj1 (sessao_emDia sessao painelCarregado [beta; alpha; semCampos]
                  carregada_tem_unidades Hne)).
Defined.

Lemma limpar_restaura_witness :
  trim EmptyString = EmptyString /\
  heap (pagina painelCarregado) !! unidades (pagina painelCarregado)
    = Some [beta; alpha; semCampos] /\
  form (pagina (reagir Limpou painelCarregado))
    = formLimpo (form (pagina painelCarregado)).
Proof.
  split; [reflexivity|]. split; [exact carregada_tem_unidades|].
  exact (proj1 (limpar_restaura painelCarregado [beta; alpha; semCampos]
                  eq_refl carregada_tem_unidades)).
Defined.

Lemma alternar_mesmos_marcadores_witness :
  heap (pagina painelCarregado) !! unidades (pagina painelCarregado)
    = Some [beta; alpha; semCampos] /\
  visiveis (pagina (reagir (AlternouClusters false) painelCarregado))
    = visiveis (pagina (reagir (AlternouClusters (negb false)) painelCarregado)).
Proof.
  split; [exact carregada_tem_unidades|].
  exact (proj1 (proj2 (proj2
           (alternar_mesmos_marcadores false painelCarregado
              [beta; alpha; semCampos] carregada_tem_unidades)))).
Defined.

Lemma caixa_espelha_variavel_witness :
  heap (pagina painelCarregado) !! unidades (pagina painelCarregado)
    = Some [beta; alpha; semCampos] /\
  (espelhado painelCarregado \/ Exists atribuiClusters sessao) /\
  espelhado (executar sessao painelCarregado).
Proof.
  assert (Hor : espelhado painelCarregado \/ Exists atribuiClusters sessao).
  { right. apply Exists_cons_tl, Exists_cons_hd. exact I. }
  split; [exact carregada_tem_unidades|]. split; [exact Hor|].
  exact (caixa_espelha_variavel sessao painelCarregado
           [beta; alpha; semCampos] carregada_tem_unidades Hor).
Defined.

End MaisExemplos.
